(** * PR agent server: change inspector, template registry, recommender

    A shallow embedding of [starter/server.py] (the three tools
    [analyze_file_changes], [get_pr_templates] and [suggest_template])
    and the properties of the specification settled against it.

    Modelling conventions.
    - Python [str] is [string], a sequence of code points below 256;
      [lower] and [strip] are [str.lower] and [str.strip] on these code
      points.
    - Python [int] is [Z].
    - A Python [dict] is an association list kept in insertion order
      (iteration order is observable through [max] and [next(iter(..))]).
    - [json.dumps] of a dict is kept as structured data (a record or a
      constructor naming the keys that are present).
    - [subprocess.run] is an effect: every call is logged and answered by
      the host. *)

From Stdlib Require Import String Ascii List ZArith Lia Bool.
From Stdlib Require Import DecimalString DecimalPos DecimalZ.
Import ListNotations.
Open Scope list_scope.
Open Scope string_scope.

(** ** Python string and list primitives *)

Module Py.

Definition LF : ascii := "010"%char.
Definition TAB : ascii := "009"%char.

(** [s.split(sep)] for a one-character separator. *)
Fixpoint split (sep : ascii) (s : string) : list string :=
  match s with
  | EmptyString => [EmptyString]
  | String c s' =>
      if Ascii.eqb c sep then EmptyString :: split sep s'
      else match split sep s' with
           | h :: t => String c h :: t
           | [] => [String c EmptyString]
           end
  end.

(** [sep.join(l)]. *)
Fixpoint join (sep : string) (l : list string) : string :=
  match l with
  | [] => EmptyString
  | x :: r =>
      match r with
      | [] => x
      | _ :: _ => x ++ sep ++ join sep r
      end
  end.

(** [str.isspace] on one code point below 256: HT, LF, VT, FF, CR, FS,
    GS, RS, US, the space, NEL (U+0085) and the no-break space (U+00A0). *)
Definition is_space (c : ascii) : bool :=
  let n := nat_of_ascii c in
  ((9 <=? n)%nat && (n <=? 13)%nat) || ((28 <=? n)%nat && (n <=? 32)%nat)
  || (n =? 133)%nat || (n =? 160)%nat.

Fixpoint lstrip (s : string) : string :=
  match s with
  | EmptyString => EmptyString
  | String c s' => if is_space c then lstrip s' else s
  end.

Fixpoint rstrip (s : string) : string :=
  match s with
  | EmptyString => EmptyString
  | String c s' =>
      match rstrip s' with
      | EmptyString => if is_space c then EmptyString else String c EmptyString
      | r => String c r
      end
  end.

(** [s.strip()]. *)
Definition strip (s : string) : string := lstrip (rstrip s).

(** [c.lower()] on one code point below 256: the letters A to Z, and the
    accented capitals U+00C0 to U+00DE but the multiplication sign
    U+00D7, are moved 32 up. *)
Definition lower_char (c : ascii) : ascii :=
  let n := nat_of_ascii c in
  if ((65 <=? n)%nat && (n <=? 90)%nat)
     || ((192 <=? n)%nat && (n <=? 214)%nat)
     || ((216 <=? n)%nat && (n <=? 222)%nat)
  then ascii_of_nat (n + 32) else c.

(** [s.lower()]. *)
Fixpoint lower (s : string) : string :=
  match s with
  | EmptyString => EmptyString
  | String c s' => String (lower_char c) (lower s')
  end.

(** [needle in hay] on strings: substring containment. *)
Fixpoint contains (needle hay : string) : bool :=
  String.prefix needle hay ||
  match hay with
  | EmptyString => false
  | String _ hay' => contains needle hay'
  end.

(** [c in s] for a single character. *)
Fixpoint has_char (c : ascii) (s : string) : bool :=
  match s with
  | EmptyString => false
  | String a s' => Ascii.eqb a c || has_char c s'
  end.

(** [str(n)] / the [{n}] of an f-string, for an [int]. *)
Definition str (n : Z) : string := NilZero.string_of_int (Z.to_int n).

(** [len(l)]. *)
Definition len {A} (l : list A) : Z := Z.of_nat (List.length l).

(** [l[:stop]]; a negative [stop] counts from the end. *)
Definition slice_to {A} (l : list A) (stop : Z) : list A :=
  if (stop <? 0)%Z then firstn (List.length l - Z.to_nat (- stop)) l
  else firstn (Z.to_nat stop) l.

(** *** Insertion-ordered dictionaries with string keys *)

Definition dict (V : Type) : Type := list (string * V).

Fixpoint dict_get {V} (d : dict V) (k : string) : option V :=
  match d with
  | [] => None
  | (k', v) :: r => if String.eqb k' k then Some v else dict_get r k
  end.

(** [k in d]. *)
Definition dict_mem {V} (d : dict V) (k : string) : bool :=
  match dict_get d k with Some _ => true | None => false end.

(** [d[k] = v]: an existing key keeps its position, a new key goes last. *)
Fixpoint dict_set {V} (d : dict V) (k : string) (v : V) : dict V :=
  match d with
  | [] => [(k, v)]
  | (k', v') :: r =>
      if String.eqb k' k then (k', v) :: r else (k', v') :: dict_set r k v
  end.

Definition dict_keys {V} (d : dict V) : list string := map fst d.

(** [max(items, key=lambda x: x[1])]: the first item whose key is not
    exceeded; an item replaces the current maximum only when its key is
    strictly greater.  [None] stands for the [ValueError] on an empty
    iterable. *)
Definition keep_greater (best item : string * Z) : string * Z :=
  if (snd item >? snd best)%Z then item else best.

Definition max_by_snd (items : list (string * Z)) : option (string * Z) :=
  match items with
  | [] => None
  | x :: r => Some (fold_left keep_greater r x)
  end.

(** How many times [c] occurs in [s]: [s.count(c)]. *)
Fixpoint count_char (c : ascii) (s : string) : nat :=
  match s with
  | EmptyString => 0%nat
  | String a s' => ((if Ascii.eqb a c then 1 else 0) + count_char c s')%nat
  end.

(** Whether every character of [s] satisfies [p]. *)
Fixpoint all_chars (p : ascii -> bool) (s : string) : bool :=
  match s with
  | EmptyString => true
  | String a s' => p a && all_chars p s'
  end.

End Py.

Import Py.

(** ** Change inspector: [analyze_file_changes] *)

Module Inspector.

(** The [CompletedProcess] fields the tool reads. *)
Record CompletedProcess : Type := {
  returncode : Z;
  stdout : string;
  stderr : string
}.

(** What surrounds the tool: the MCP session and the git binary.
    [list_roots] gives the [uri.path] of every root, or the text of the
    exception the session raises; [git argv cwd] is what
    [subprocess.run(argv, capture_output=True, text=True, cwd=cwd)] gives,
    a completed process or the text of the exception it raises. *)
Record Host : Type := {
  list_roots : string + list string;
  git : list string -> string -> string + CompletedProcess
}.

Record Invocation : Type := { argv : list string; cwd : string }.

(** Computations that log the subprocesses they start and may raise. *)
Inductive outcome (A : Type) : Type :=
| Val (a : A)
| Raised (msg : string).
Arguments Val {A} a.
Arguments Raised {A} msg.

Definition Eff (A : Type) : Type := list Invocation -> outcome A * list Invocation.

Definition ret {A} (a : A) : Eff A := fun log => (Val a, log).

Definition raise {A} (msg : string) : Eff A := fun log => (Raised msg, log).

Definition bind {A B} (c : Eff A) (k : A -> Eff B) : Eff B :=
  fun log =>
    match c log with
    | (Val a, log') => k a log'
    | (Raised msg, log') => (Raised msg, log')
    end.

Notation "x <- c ;; k" := (bind c (fun x => k))
  (at level 61, c at next level, right associativity).

(** [roots_result.roots[0].uri.path]. *)
Definition working_dir_of (h : Host) : Eff string :=
  match list_roots h with
  | inl msg => raise msg
  | inr [] => raise "list index out of range"
  | inr (root :: _) => ret root
  end.

Definition subprocess_run (h : Host) (cmd : list string) (dir : string)
  : Eff CompletedProcess :=
  fun log =>
    let log' := (log ++ [{| argv := cmd; cwd := dir |}])%list in
    match git h cmd dir with
    | inl msg => (Raised msg, log')
    | inr p => (Val p, log')
    end.

Record ChangedFile : Type := { status : string; filename : string }.

(** The JSON documents the tool returns. *)
Record ChangeReport : Type := {
  stats : string;
  total_diff_lines : Z;
  files_changed : list ChangedFile;
  diff : string
}.

Inductive Response : Type :=
| CommandFailed (error command : string)
| Failed (error : string)
| Report (r : ChangeReport).

Definition diff_cmd (base_branch : string) : list string :=
  ["git"; "diff"; base_branch ++ "...HEAD"].
Definition stats_cmd (base_branch : string) : list string :=
  ["git"; "diff"; "--stat"; base_branch ++ "...HEAD"].
Definition files_cmd (base_branch : string) : list string :=
  ["git"; "diff"; "--name-status"; base_branch ++ "...HEAD"].

(** The notice appended by the truncation, without its two leading
    newlines. *)
Definition truncation_notice (max_diff_lines total_lines : Z) : string :=
  "... Output truncated. Showing " ++ str max_diff_lines ++ " of "
    ++ str total_lines ++ " lines ...".

(** Lines 66-74: the value of [diff_output] after the truncation step. *)
Definition truncated_diff (diff_output : string) (max_diff_lines : Z) : string :=
  let diff_lines := split LF diff_output in
  let total_lines := len diff_lines in
  if (total_lines >? max_diff_lines)%Z then
    join (String LF EmptyString) (slice_to diff_lines max_diff_lines)
      ++ String LF (String LF (truncation_notice max_diff_lines total_lines))
  else diff_output.

(** One turn of the loop of lines 108-115. *)
Definition parse_line (changed_files : list ChangedFile) (line : string)
  : list ChangedFile :=
  if String.eqb line EmptyString then changed_files
  else
    let parts := split TAB line in
    if (len parts >=? 2)%Z then
      (changed_files ++
         [{| status := nth 0 parts EmptyString;
             filename := nth 1 parts EmptyString |}])%list
    else changed_files.

(** Lines 106-115. *)
Definition parse_changed_files (files_stdout : string) : list ChangedFile :=
  fold_left parse_line (split LF (strip files_stdout)) [].

Definition diff_placeholder : string :=
  "Diff not included (set include_diff=true to see it)".

Definition analyze_body (h : Host) (base_branch : string)
    (include_diff : bool) (max_diff_lines : Z) : Eff Response :=
  working_dir <- working_dir_of h ;;
  diff_result <- subprocess_run h (diff_cmd base_branch) working_dir ;;
  if negb (returncode diff_result =? 0)%Z then
    ret (CommandFailed ("Git diff command failed: " ++ stderr diff_result)
           (join " " (diff_cmd base_branch)))
  else
    let diff_output := stdout diff_result in
    let total_lines := len (split LF diff_output) in
    let diff_output := truncated_diff diff_output max_diff_lines in
    stats_result <- subprocess_run h (stats_cmd base_branch) working_dir ;;
    if negb (returncode stats_result =? 0)%Z then
      ret (CommandFailed
             ("Git diff --stat command failed: " ++ stderr stats_result)
             (join " " (stats_cmd base_branch)))
    else
      files_result <- subprocess_run h (files_cmd base_branch) working_dir ;;
      if negb (returncode files_result =? 0)%Z then
        ret (CommandFailed
               ("Git diff --name-status command failed: " ++ stderr files_result)
               (join " " (files_cmd base_branch)))
      else
        let changed_files := parse_changed_files (stdout files_result) in
        ret (Report {|
               stats := stdout stats_result;
               total_diff_lines := total_lines;
               files_changed := changed_files;
               diff := if include_diff then diff_output else diff_placeholder
             |}).

(** The tool: the body under its [try] / [except Exception]. *)
Definition analyze_file_changes (h : Host) (base_branch : string)
    (include_diff : bool) (max_diff_lines : Z)
  : list Invocation -> Response * list Invocation :=
  fun log =>
    match analyze_body h base_branch include_diff max_diff_lines log with
    | (Val r, log') => (r, log')
    | (Raised msg, log') => (Failed msg, log')
    end.

(** A repository whose three commands succeed with the given outputs. *)
Definition repo_host (diff_out stats_out files_out : string) : Host := {|
  list_roots := inr ["/repo"];
  git := fun cmd _ =>
    inr {| returncode := 0;
           stdout := match cmd with
                     | [_; _; _] => diff_out
                     | [_; _; "--stat"; _] => stats_out
                     | _ => files_out
                     end;
           stderr := "" |}
|}.

(** A three-line diff with no final newline, one modified file. *)
Definition demo_host : Host :=
  repo_host
    (String "a" (String LF (String "b" (String LF "c"))))
    (" server.py | 2 +-" ++ String LF "")
    ("M" ++ String TAB ("server.py" ++ String LF "")).

(** A host whose session and whose three commands answer as given. *)
Definition scripted_host (roots : string + list string)
    (d s f : string + CompletedProcess) : Host := {|
  list_roots := roots;
  git := fun cmd _ =>
    match cmd with
    | [_; _; _] => d
    | [_; _; "--stat"; _] => s
    | _ => f
    end
|}.

Definition exited (code : Z) (out err : string) : string + CompletedProcess :=
  inr {| returncode := code; stdout := out; stderr := err |}.

(** The three commands of one call, as logged. *)
Definition commands (base_branch wd : string) : list Invocation :=
  [ {| argv := diff_cmd base_branch; cwd := wd |};
    {| argv := stats_cmd base_branch; cwd := wd |};
    {| argv := files_cmd base_branch; cwd := wd |} ].

(** The line git prints for one changed file, and the output it prints
    for a list of them, every line ended by a newline. *)
Definition name_status_line (e : ChangedFile) : string :=
  status e ++ String TAB (filename e).

Definition name_status_output (entries : list ChangedFile) : string :=
  fold_right (fun e out => name_status_line e ++ String LF out) "" entries.

Definition starts_unspaced (s : string) : bool :=
  match s with
  | EmptyString => false
  | String c _ => negb (is_space c)
  end.

Definition ends_unspaced (s : string) : bool :=
  negb (String.eqb s "") && String.eqb (rstrip s) s.

(** An entry that survives printing and parsing: no tab and no newline in
    its fields, a status that does not start with whitespace and a
    filename that does not end with whitespace. *)
Definition printable (e : ChangedFile) : bool :=
  negb (has_char TAB (status e)) && negb (has_char LF (status e)) &&
  negb (has_char TAB (filename e)) && negb (has_char LF (filename e)) &&
  starts_unspaced (status e) && ends_unspaced (filename e).

End Inspector.

(** ** Template registry: [get_pr_templates] *)

Module Registry.

(** One path yielded by [TEMPLATES_DIR.glob("*.md")]: its [name], its
    [str(..)], and what opening and reading it gives, the content or the
    text of the exception raised. *)
Record TemplateFile : Type := {
  file_name : string;
  file_path : string;
  file_read : string + string
}.

(** The templates directory as the tool observes it; [glob_md] is in the
    order the iteration yields. *)
Record TemplatesDir : Type := {
  dir_str : string;
  dir_exists : bool;
  dir_is_dir : bool;
  glob_md : list TemplateFile
}.

(** [name.rfind(c)]. *)
Fixpoint rfind (c : ascii) (s : string) : option nat :=
  match s with
  | EmptyString => None
  | String a s' =>
      match rfind c s' with
      | Some i => Some (S i)
      | None => if Ascii.eqb a c then Some 0%nat else None
      end
  end.

(** [PurePath.stem]: the name without its last suffix; a leading or a
    final dot starts no suffix. *)
Definition stem (name : string) : string :=
  match rfind "."%char name with
  | Some i =>
      if (0 <? i)%nat && (i <? String.length name - 1)%nat
      then substring 0 i name else name
  | None => name
  end.

(** The values of the [templates] dictionary. *)
Inductive TemplateEntry : Type :=
| Template (name path content : string)
| Unreadable (name error : string).

(** One turn of the loop of lines 144-165. *)
Definition add_template (templates : dict TemplateEntry) (template_file : TemplateFile)
  : dict TemplateEntry :=
  let template_name := stem (file_name template_file) in
  match file_read template_file with
  | inr content =>
      dict_set templates template_name
        (Template template_name (file_path template_file) content)
  | inl e =>
      dict_set templates (file_name template_file)
        (Unreadable (file_name template_file) ("Failed to read template: " ++ e))
  end.

Inductive TemplatesResponse : Type :=
| TemplatesError (error : string)
| Templates (templates : dict TemplateEntry) (count : Z) (templates_dir : string).

Definition get_pr_templates (fs : TemplatesDir) : TemplatesResponse :=
  if negb (dir_exists fs) || negb (dir_is_dir fs) then
    TemplatesError ("Templates directory not found at " ++ dir_str fs)
  else
    let templates := fold_left add_template (glob_md fs) [] in
    Templates templates (len templates) (dir_str fs).

(** The key under which a file is entered. *)
Definition key_of (f : TemplateFile) : string :=
  match file_read f with
  | inr _ => stem (file_name f)
  | inl _ => file_name f
  end.

Definition entry_of (f : TemplateFile) : TemplateEntry :=
  match file_read f with
  | inr content => Template (stem (file_name f)) (file_path f) content
  | inl e => Unreadable (file_name f) ("Failed to read template: " ++ e)
  end.

Definition a_dir (files : list TemplateFile) : TemplatesDir :=
  {| dir_str := "/srv/templates"; dir_exists := true; dir_is_dir := true;
     glob_md := files |}.

Definition readable (name content : string) : TemplateFile :=
  {| file_name := name; file_path := "/srv/templates/" ++ name;
     file_read := inr content |}.

Definition unreadable (name : string) : TemplateFile :=
  {| file_name := name; file_path := "/srv/templates/" ++ name;
     file_read := inl "[Errno 13] Permission denied" |}.

(** The ["name"] field of an entry. *)
Definition entry_name (entry : TemplateEntry) : string :=
  match entry with
  | Template name _ _ => name
  | Unreadable name _ => name
  end.

End Registry.

(** ** Template recommender: [suggest_template] *)

Module Recommender.

Import Registry.

Inductive Confidence : Type := high | medium | low.

(** The JSON documents the tool returns: an error with a null suggestion,
    or a suggestion. *)
Inductive Recommendation : Type :=
| NoSuggestion (error : string)
| Suggestion (suggestion : string) (template : TemplateEntry)
    (confidence : Confidence) (reason : string).

Definition common_types : dict string :=
  [ ("bug", "bug"); ("fix", "bug"); ("bugfix", "bug");
    ("feature", "feature"); ("feat", "feature"); ("enhancement", "feature");
    ("docs", "docs"); ("documentation", "docs");
    ("refactor", "refactor");
    ("test", "test"); ("tests", "test"); ("testing", "test");
    ("security", "security");
    ("performance", "performance"); ("perf", "performance");
    ("optimization", "performance") ].

Definition keywords : dict (list string) :=
  [ ("bug",
     ["bug"; "fix"; "issue"; "problem"; "error"; "crash"; "resolve"]);
    ("feature",
     ["feature"; "add"; "new"; "implement"; "enhancement"; "functionality"]);
    ("docs",
     ["docs"; "documentation"; "readme"; "comment"; "guide"; "tutorial"]);
    ("refactor",
     ["refactor"; "clean"; "improve"; "simplify"; "restructure"; "redesign"]);
    ("test",
     ["test"; "coverage"; "unit test"; "integration test"; "e2e"; "testing"]);
    ("security",
     ["security"; "vulnerability"; "secure"; "protect"; "encrypt"; "auth"]);
    ("performance",
     ["performance"; "optimize"; "speed"; "efficient"; "fast"; "slow"]) ].

(** [scores[template_type] += 1]; every key used is set by the
    comprehension of line 258, so the [KeyError] case does not arise and
    is left as no change. *)
Definition increment (scores : dict Z) (template_type : string) : dict Z :=
  match dict_get scores template_type with
  | Some n => dict_set scores template_type (n + 1)%Z
  | None => scores
  end.

(** Lines 262-264: the inner loop, over the keywords of one category. *)
Definition count_words (summary_lower template_type : string)
    (scores : dict Z) (words : list string) : dict Z :=
  fold_left
    (fun scores word =>
       if contains word summary_lower then increment scores template_type
       else scores)
    words scores.

(** Lines 258-264. *)
Definition keyword_scores (changes_summary : string) : dict Z :=
  let scores := map (fun kw => (fst kw, 0%Z)) keywords in
  let summary_lower := lower changes_summary in
  fold_left
    (fun scores kw => count_words summary_lower (fst kw) scores (snd kw))
    keywords scores.

(** Line 267; [None] is the [ValueError] of [max] on no items. *)
Definition best_match (changes_summary : string) : option (string * Z) :=
  max_by_snd (keyword_scores changes_summary).

(** Stage 1, lines 207-241. *)
Definition direct_match (templates : dict TemplateEntry) (change_type : string)
  : option Recommendation :=
  let normalized_change_type := strip (lower change_type) in
  match dict_get common_types normalized_change_type with
  | Some suggested_template =>
      if negb (String.eqb suggested_template EmptyString) then
        match dict_get templates suggested_template with
        | Some template =>
            Some (Suggestion suggested_template template high
                    ("Direct match for change type '" ++ change_type ++ "'"))
        | None => None
        end
      else None
  | None => None
  end.

(** Stage 2, lines 246-278, once [max] has given its item. *)
Definition keyword_match (templates : dict TemplateEntry) (best : string * Z)
  : option Recommendation :=
  let (template_type, score) := best in
  if (score >? 0)%Z then
    match dict_get templates template_type with
    | Some template =>
        Some (Suggestion template_type template
                (if (score >? 2)%Z then medium else low)
                ("Based on " ++ str score
                   ++ " keyword matches in the changes summary"))
    | None => None
    end
  else None.

(** Stage 3, lines 280-296; [next(iter(templates))] on no template raises
    [StopIteration], whose text is empty. *)
Definition default_template (templates : dict TemplateEntry) : Recommendation :=
  match dict_get templates "feature" with
  | Some template =>
      Suggestion "feature" template low
        "No strong match found, defaulting to feature template"
  | None =>
      match templates with
      | (first_template_name, template) :: _ =>
          Suggestion first_template_name template low
            "No match found, using first available template"
      | [] => NoSuggestion ""
      end
  end.

Definition suggest_template (fs : TemplatesDir)
    (changes_summary change_type : string) : Recommendation :=
  match get_pr_templates fs with
  | TemplatesError e => NoSuggestion ("Failed to get templates: " ++ e)
  | Templates templates count _ =>
      if (count =? 0)%Z then NoSuggestion "No templates available"
      else
        match direct_match templates change_type with
        | Some r => r
        | None =>
            match best_match changes_summary with
            | None => NoSuggestion "max() iterable argument is empty"
            | Some best =>
                match keyword_match templates best with
                | Some r => r
                | None => default_template templates
                end
            end
        end
  end.

(** How many of [words] occur in the lowered summary. *)
Definition hits (summary_lower : string) (words : list string) : Z :=
  len (filter (fun word => contains word summary_lower) words).

(** The score of one category: how many of its keywords occur in the
    lowered summary. *)
Definition matches (changes_summary : string) (words : list string) : Z :=
  hits (lower changes_summary) words.

Definition score_of (changes_summary template_type : string) : Z :=
  match dict_get keywords template_type with
  | Some words => matches changes_summary words
  | None => 0%Z
  end.

(** The declaration order of the categories. *)
Definition categories : list string := dict_keys keywords.

(** Position of the first occurrence of [c] in [l] ([length l] if none). *)
Fixpoint index_of (c : string) (l : list string) : nat :=
  match l with
  | [] => 0%nat
  | x :: r => if String.eqb x c then 0%nat else S (index_of c r)
  end.

Definition declared_before (a b : string) : bool :=
  (index_of a categories <? index_of b categories)%nat.

(** A recommendation with its ["reason"] text blanked. *)
Definition without_reason (r : Recommendation) : Recommendation :=
  match r with
  | NoSuggestion e => NoSuggestion e
  | Suggestion name template confidence _ =>
      Suggestion name template confidence ""
  end.

End Recommender.

Import Inspector Registry Recommender.

(** * Facts about the primitives *)

Section SplitJoin.

Variable sep : ascii.

Lemma split_not_nil (s : string) : split sep s <> [].
Proof.
  destruct s as [|c s]; simpl; [discriminate|].
  destruct (Ascii.eqb c sep); [discriminate|].
  destruct (split sep s); discriminate.
Qed.

Lemma split_free (s : string) : has_char sep s = false -> split sep s = [s].
Proof.
  induction s as [|c s IH]; simpl; intros H; [reflexivity|].
  apply orb_false_iff in H. destruct H as [Hc Hs].
  rewrite Hc, (IH Hs). reflexivity.
Qed.

Lemma split_app (a b : string) :
  split sep (a ++ String sep b) = (split sep a ++ split sep b)%list.
Proof.
  induction a as [|c a IH]; simpl.
  - now rewrite Ascii.eqb_refl.
  - destruct (Ascii.eqb c sep); [now rewrite IH|].
    rewrite IH. destruct (split sep a) as [|h t] eqn:E; [|reflexivity].
    now apply split_not_nil in E.
Qed.

Lemma split_parts_free (s : string) :
  Forall (fun part => has_char sep part = false) (split sep s).
Proof.
  induction s as [|c s IH]; simpl.
  - now constructor.
  - destruct (Ascii.eqb c sep) eqn:Hc; [now constructor|].
    destruct (split sep s) as [|h t].
    + constructor; [simpl; now rewrite Hc | constructor].
    + inversion IH; subst. constructor; [simpl; now rewrite Hc | assumption].
Qed.

Lemma split_join (l : list string) :
  l <> [] ->
  Forall (fun part => has_char sep part = false) l ->
  split sep (join (String sep EmptyString) l) = l.
Proof.
  induction l as [|x r IH]; intros Hne Hfree; [contradiction|].
  inversion Hfree as [|? ? Hx Hr]; subst.
  destruct r as [|y r'].
  - simpl. now apply split_free.
  - change (join (String sep "") (x :: y :: r'))
      with (x ++ String sep (join (String sep "") (y :: r'))).
    rewrite split_app, (split_free x Hx), IH; [reflexivity|discriminate|assumption].
Qed.

End SplitJoin.

Lemma Forall_firstn_keeps {A} (P : A -> Prop) (n : nat) (l : list A) :
  Forall P l -> Forall P (firstn n l).
Proof.
  revert l. induction n as [|n IH]; intros l H; simpl; [constructor|].
  destruct H; constructor; auto.
Qed.

Lemma last_two {A} (l : list A) (a b d : A) : last (l ++ [a; b]) d = b.
Proof.
  change (l ++ [a; b])%list with (l ++ [a] ++ [b])%list.
  rewrite app_assoc. apply last_last.
Qed.

Lemma has_char_app (c : ascii) (a b : string) :
  has_char c (a ++ b) = has_char c a || has_char c b.
Proof.
  induction a as [|x a IH]; simpl; [reflexivity|].
  now rewrite IH, orb_assoc.
Qed.

(** A decimal numeral holds digits and a sign only: no character below
    ["-"], so no newline and no space. *)
Lemma string_of_uint_above (c : ascii) (d : Decimal.uint) :
  (nat_of_ascii c <? 45)%nat = true ->
  has_char c (NilEmpty.string_of_uint d) = false.
Proof.
  intros Hc.
  induction d; cbn [NilEmpty.string_of_uint has_char]; [reflexivity|..];
    rewrite IHd;
    match goal with
    | |- Ascii.eqb ?x c || false = false =>
        destruct (Ascii.eqb_spec x c) as [<-|_]; [vm_compute in Hc; discriminate|reflexivity]
    end.
Qed.

Lemma str_above (c : ascii) (n : Z) :
  (nat_of_ascii c <? 45)%nat = true -> has_char c (str n) = false.
Proof.
  intros Hc. unfold str, NilZero.string_of_int, NilZero.string_of_uint.
  assert (Hzero : has_char c "0" = false).
  { cbn [has_char]. destruct (Ascii.eqb_spec "0"%char c) as [<-|_];
      [vm_compute in Hc; discriminate|reflexivity]. }
  assert (Hminus : Ascii.eqb "-"%char c = false).
  { destruct (Ascii.eqb_spec "-"%char c) as [<-|_];
      [vm_compute in Hc; discriminate|reflexivity]. }
  destruct (Z.to_int n) as [d|d]; destruct d;
    cbn [has_char]; rewrite ?Hminus;
    try exact Hzero; apply string_of_uint_above; assumption.
Qed.

Lemma str_no_LF (n : Z) : has_char LF (str n) = false.
Proof. now apply str_above. Qed.

(** [str] is the decimal numeral: reading it back gives the number. *)
Lemma str_exact (n : Z) :
  option_map Z.of_int (NilZero.int_of_string (str n)) = Some n.
Proof.
  unfold str. rewrite NilZero.isi.
  - simpl. f_equal. apply DecimalZ.of_to.
  - destruct n; simpl; [discriminate| |discriminate].
    intros [= H]. now apply DecimalPos.Unsigned.to_uint_nonnil in H.
  - destruct n; simpl; [discriminate|discriminate|].
    intros [= H]. now apply DecimalPos.Unsigned.to_uint_nonnil in H.
Qed.

Lemma str_inj (a b : Z) : str a = str b -> a = b.
Proof.
  intros H. pose proof (str_exact a) as Ha. rewrite H, str_exact in Ha.
  now injection Ha.
Qed.

Lemma append_same_head (p a b : string) : p ++ a = p ++ b -> a = b.
Proof.
  induction p as [|c p IH]; simpl; intros H; [assumption|].
  injection H as H. now apply IH.
Qed.

Lemma append_sep_inj (c : ascii) (a a' b b' : string) :
  has_char c a = false -> has_char c a' = false ->
  a ++ String c b = a' ++ String c b' -> a = a' /\ b = b'.
Proof.
  revert a'. induction a as [|x a IH]; intros [|x' a']; simpl;
    intros Ha Ha' H.
  - injection H as ->. now split.
  - injection H as -> _. now rewrite Ascii.eqb_refl in Ha'.
  - injection H as -> _. now rewrite Ascii.eqb_refl in Ha.
  - injection H as -> H.
    apply orb_false_iff in Ha, Ha'.
    destruct (IH a' (proj2 Ha) (proj2 Ha') H) as [-> ->]. now split.
Qed.

(** * The change inspector *)

(** The notice states its two counts exactly: it determines them. *)
Lemma truncation_notice_exact (n m n' m' : Z) :
  truncation_notice n m = truncation_notice n' m' -> n = n' /\ m = m'.
Proof.
  unfold truncation_notice. intros H.
  apply append_same_head in H.
  apply (append_sep_inj " "%char) in H;
    [|now apply str_above | now apply str_above].
  destruct H as [Hn H]. apply (append_same_head "of ") in H.
  apply (append_sep_inj " "%char) in H;
    [|now apply str_above | now apply str_above].
  destruct H as [Hm _]. split; now apply str_inj.
Qed.

Lemma truncation_notice_no_LF (n m : Z) :
  has_char LF (truncation_notice n m) = false.
Proof.
  unfold truncation_notice.
  repeat rewrite has_char_app. now rewrite !str_no_LF.
Qed.

Lemma truncated_diff_short (diff_output : string) (n : Z) :
  (len (split LF diff_output) <= n)%Z ->
  truncated_diff diff_output n = diff_output.
Proof.
  intros H. unfold truncated_diff.
  destruct (Z.gtb_spec (len (split LF diff_output)) n); [lia|reflexivity].
Qed.

Lemma truncated_diff_long (diff_output : string) (n : Z) :
  (0 <= n < len (split LF diff_output))%Z ->
  split LF (truncated_diff diff_output n) =
    ((if (n =? 0)%Z then [EmptyString] else slice_to (split LF diff_output) n)
       ++ [EmptyString;
           truncation_notice n (len (split LF diff_output))])%list.
Proof.
  intros [H0 Hlt]. unfold truncated_diff.
  destruct (Z.gtb_spec (len (split LF diff_output)) n) as [_|]; [|lia].
  rewrite split_app. f_equal.
  - unfold slice_to. destruct (Z.ltb_spec n 0) as [|_]; [lia|].
    destruct (Z.eqb_spec n 0) as [->|Hn]; [reflexivity|].
    apply split_join.
    + unfold len in Hlt.
      destruct (split LF diff_output) as [|l ls]; [simpl in Hlt; lia|].
      destruct (Z.to_nat n) eqn:E; [lia|discriminate].
    + apply Forall_firstn_keeps, split_parts_free.
  - simpl. now rewrite split_free by apply truncation_notice_no_LF.
Qed.

(** When the roots are listed and the three commands exit with 0, the
    tool runs them in order and builds its report from their outputs. *)
Lemma analyze_ok (h : Host) (base_branch : string) (include_diff : bool)
    (max_diff_lines : Z) (wd : string) (others : list string)
    (d s f : CompletedProcess) (log : list Invocation) :
  list_roots h = inr (wd :: others) ->
  git h (diff_cmd base_branch) wd = inr d -> returncode d = 0%Z ->
  git h (stats_cmd base_branch) wd = inr s -> returncode s = 0%Z ->
  git h (files_cmd base_branch) wd = inr f -> returncode f = 0%Z ->
  analyze_file_changes h base_branch include_diff max_diff_lines log =
    (Report {|
       stats := stdout s;
       total_diff_lines := len (split LF (stdout d));
       files_changed := parse_changed_files (stdout f);
       diff := if include_diff
               then truncated_diff (stdout d) max_diff_lines
               else diff_placeholder |},
     (log ++ [ {| argv := diff_cmd base_branch; cwd := wd |};
               {| argv := stats_cmd base_branch; cwd := wd |};
               {| argv := files_cmd base_branch; cwd := wd |} ])%list).
Proof.
  intros Hroots Hd Hd0 Hs Hs0 Hf Hf0.
  unfold analyze_file_changes, analyze_body, bind, working_dir_of, subprocess_run.
  rewrite Hroots. unfold ret at 1. cbv beta iota.
  rewrite Hd, Hd0. cbn [Z.eqb negb].
  rewrite Hs, Hs0. cbn [Z.eqb negb].
  rewrite Hf, Hf0. cbn [Z.eqb negb]. unfold ret.
  now rewrite <- !app_assoc.
Qed.

(** C1, as stated, fails: one line of a three-line diff is asked for, and
    the text returned has three lines (the kept line, an empty line, the
    notice), not two. *)
Lemma truncated_line_count_counterexample :
  exists r log,
    analyze_file_changes demo_host "main" true 1 [] = (Report r, log) /\
    total_diff_lines r = 3%Z /\
    (3 > 1)%Z /\
    len (split LF (diff r)) = 3%Z /\
    len (split LF (diff r)) <> (1 + 1)%Z.
Proof.
  eexists; eexists. split; [reflexivity|].
  repeat split; try reflexivity; discriminate.
Qed.

(** C1, amended.  With the three commands succeeding and the diff asked
    for, a cap [n >= 0] and a diff of [m] lines: when [m <= n] the diff
    is returned verbatim; when [m > n] the text returned is the first [n]
    lines, an empty line, and a last line
    ["... Output truncated. Showing n of m lines ..."], the decimal
    numerals of [n] and [m], which the line determines; so it has [n + 2]
    lines for [n >= 1] and 3 lines for [n = 0]; in every case it has at
    most [max n 1 + 2] lines. *)
Theorem truncation_policy (h : Host) (base_branch : string) (n : Z)
    (wd : string) (others : list string) (d s f : CompletedProcess)
    (log : list Invocation) :
  (0 <= n)%Z ->
  list_roots h = inr (wd :: others) ->
  git h (diff_cmd base_branch) wd = inr d -> returncode d = 0%Z ->
  git h (stats_cmd base_branch) wd = inr s -> returncode s = 0%Z ->
  git h (files_cmd base_branch) wd = inr f -> returncode f = 0%Z ->
  let m := len (split LF (stdout d)) in
  exists r log',
    analyze_file_changes h base_branch true n log = (Report r, log') /\
    total_diff_lines r = m /\
    ((m <= n)%Z -> diff r = stdout d) /\
    ((m > n)%Z ->
       split LF (diff r) =
         ((if (n =? 0)%Z then [EmptyString]
           else firstn (Z.to_nat n) (split LF (stdout d)))
            ++ [EmptyString;
                ("... Output truncated. Showing " ++ str n ++ " of "
                   ++ str m ++ " lines ...")%string])%list /\
       len (split LF (diff r)) = (Z.max n 1 + 2)%Z /\
       last (split LF (diff r)) EmptyString =
         "... Output truncated. Showing " ++ str n ++ " of "
           ++ str m ++ " lines ..." /\
       (forall n' m',
          last (split LF (diff r)) EmptyString = truncation_notice n' m' ->
          n' = n /\ m' = m)) /\
    (len (split LF (diff r)) <= Z.max n 1 + 2)%Z.
Proof.
  intros Hn Hroots Hd Hd0 Hs Hs0 Hf Hf0 m.
  eexists; eexists. split.
  { apply (analyze_ok h base_branch true n wd others d s f log); assumption. }
  cbn [total_diff_lines diff].
  assert (Hlong : (m > n)%Z ->
            split LF (truncated_diff (stdout d) n) =
              ((if (n =? 0)%Z then [EmptyString]
                else firstn (Z.to_nat n) (split LF (stdout d)))
                 ++ [EmptyString; truncation_notice n m])%list).
  { intros Hm. rewrite truncated_diff_long by (fold m; lia).
    unfold slice_to. destruct (Z.ltb_spec n 0); [lia|reflexivity]. }
  assert (Hcount : (m > n)%Z ->
            len (split LF (truncated_diff (stdout d) n)) = (Z.max n 1 + 2)%Z).
  { intros Hm. rewrite (Hlong Hm). unfold len. rewrite length_app.
    destruct (Z.eqb_spec n 0) as [->|Hnz]; [reflexivity|].
    rewrite length_firstn. cbn [List.length]. subst m. unfold len in Hm. lia. }
  split; [reflexivity|]. split; [|split].
  - intros Hm. now apply truncated_diff_short.
  - intros Hm. split; [exact (Hlong Hm)|]. split; [exact (Hcount Hm)|].
    rewrite (Hlong Hm), last_two. split; [reflexivity|].
    intros n' m' E. symmetry in E. now apply truncation_notice_exact in E.
  - destruct (Z.le_gt_cases m n) as [Hm|Hm].
    + rewrite truncated_diff_short by assumption. fold m. lia.
    + rewrite Hcount; lia.
Qed.

(** ** Name-status parsing *)

Lemma parse_line_acc (acc : list ChangedFile) (line : string) :
  parse_line acc line = (acc ++ parse_line [] line)%list.
Proof.
  unfold parse_line.
  destruct (String.eqb line ""); [now rewrite app_nil_r|].
  destruct (len (split TAB line) >=? 2)%Z; [reflexivity|now rewrite app_nil_r].
Qed.

Lemma parse_fold (lines : list string) (acc : list ChangedFile) :
  fold_left parse_line lines acc = (acc ++ flat_map (parse_line []) lines)%list.
Proof.
  revert acc. induction lines as [|l ls IH]; intros acc; simpl.
  - now rewrite app_nil_r.
  - rewrite IH, (parse_line_acc acc l). now rewrite <- app_assoc.
Qed.

(** A line with at least two fields gives one entry, made of the first
    two. *)
Lemma parse_line_fields (acc : list ChangedFile) (line a b : string)
    (more : list string) :
  split TAB line = a :: b :: more ->
  parse_line acc line = (acc ++ [{| status := a; filename := b |}])%list.
Proof.
  intros H. unfold parse_line. rewrite H.
  destruct (String.eqb_spec line "") as [->|_]; [discriminate H|].
  unfold len. cbn [List.length nth].
  destruct (Z.geb_spec (Z.of_nat (S (S (List.length more)))) 2); [reflexivity|lia].
Qed.

Lemma parse_line_one_field (acc : list ChangedFile) (line : string) :
  has_char TAB line = false -> parse_line acc line = acc.
Proof.
  intros H. unfold parse_line. rewrite (split_free TAB line H).
  now destruct (String.eqb line "").
Qed.

(** Every entry parsed comes from a line with two fields or more. *)
Lemma parse_changed_files_In (out : string) (e : ChangedFile) :
  In e (parse_changed_files out) ->
  exists line more,
    In line (split LF (strip out)) /\
    line <> "" /\
    split TAB line = status e :: filename e :: more.
Proof.
  unfold parse_changed_files. rewrite parse_fold. simpl.
  intros H. apply in_flat_map in H. destruct H as [line [Hin He]].
  exists line. unfold parse_line in He.
  destruct (String.eqb_spec line "") as [|Hne]; [contradiction|].
  destruct (split TAB line) as [|a [|b more]] eqn:E;
    [contradiction | contradiction |].
  exists more.
  destruct (len (a :: b :: more) >=? 2)%Z; [|contradiction].
  destruct He as [<-|[]]. now repeat split.
Qed.

(** What a report says when the tool returns one. *)
Lemma analyze_report_inv (h : Host) (base_branch : string) (include_diff : bool)
    (max_diff_lines : Z) (log log' : list Invocation) (r : ChangeReport) :
  analyze_file_changes h base_branch include_diff max_diff_lines log
    = (Report r, log') ->
  exists wd others d s f,
    list_roots h = inr (wd :: others) /\
    (git h (diff_cmd base_branch) wd = inr d /\ returncode d = 0%Z) /\
    (git h (stats_cmd base_branch) wd = inr s /\ returncode s = 0%Z) /\
    (git h (files_cmd base_branch) wd = inr f /\ returncode f = 0%Z).
Proof.
  unfold analyze_file_changes, analyze_body, bind, working_dir_of,
    subprocess_run, ret, raise.
  destruct (list_roots h) as [msg|[|wd others]]; try discriminate.
  destruct (git h (diff_cmd base_branch) wd) as [|d] eqn:Ed; try discriminate.
  destruct (Z.eqb_spec (returncode d) 0) as [Hd|]; try discriminate.
  cbn [negb].
  destruct (git h (stats_cmd base_branch) wd) as [|s] eqn:Es; try discriminate.
  destruct (Z.eqb_spec (returncode s) 0) as [Hs|]; try discriminate.
  cbn [negb].
  destruct (git h (files_cmd base_branch) wd) as [|f] eqn:Ef; try discriminate.
  destruct (Z.eqb_spec (returncode f) 0) as [Hf|]; try discriminate.
  intros _. exists wd, others, d, s, f. repeat split; (assumption || reflexivity).
Qed.

Lemma split_two_fields (a b : string) :
  has_char TAB a = false -> has_char TAB b = false ->
  split TAB (a ++ String TAB b) = [a; b].
Proof.
  intros Ha Hb. now rewrite split_app, (split_free TAB a Ha), (split_free TAB b Hb).
Qed.


(** C2, as stated, fails.  The usual output of the command, a one-letter
    status, a tab and a path, gives an entry whose status has length one;
    and a line whose second field is empty gives an entry with an empty
    filename. *)
Lemma status_length_counterexample :
  (exists r log e,
     analyze_file_changes demo_host "main" true 500 [] = (Report r, log) /\
     In e (files_changed r) /\
     String.length (status e) = 1%nat /\ ~ (2 <= String.length (status e))%nat)
  /\
  (exists r log e,
     analyze_file_changes
       (repo_host "" "" ("A" ++ String TAB (String LF ("M" ++ String TAB "f"))))
       "main" true 500 [] = (Report r, log) /\
     In e (files_changed r) /\ filename e = "").
Proof.
  split.
  - eexists; eexists; eexists. split; [reflexivity|].
    split; [left; reflexivity|]. simpl. split; [reflexivity|lia].
  - eexists; eexists; eexists. split; [reflexivity|].
    split; [left; reflexivity|reflexivity].
Qed.

(** C2, amended.  In every report the tool returns, each entry of
    [files_changed] comes from a non-empty line of the stripped
    name-status output that has two tab-separated fields or more: its
    status is the first field of that line and its filename the second,
    so neither holds a tab. *)
Theorem changed_files_from_fields (h : Host) (base_branch : string)
    (include_diff : bool) (max_diff_lines : Z) (log log' : list Invocation)
    (r : ChangeReport) :
  analyze_file_changes h base_branch include_diff max_diff_lines log
    = (Report r, log') ->
  exists wd f,
    git h (files_cmd base_branch) wd = inr f /\
    forall e, In e (files_changed r) ->
      exists line more,
        In line (split LF (strip (stdout f))) /\
        line <> "" /\
        split TAB line = status e :: filename e :: more /\
        has_char TAB (status e) = false /\
        has_char TAB (filename e) = false.
Proof.
  intros H.
  destruct (analyze_report_inv _ _ _ _ _ _ _ H)
    as (wd & others & d & s & f & Hroots & [Hd Hd0] & [Hs Hs0] & [Hf Hf0]).
  rewrite (analyze_ok h base_branch include_diff max_diff_lines wd others d s f log)
    in H by assumption.
  injection H as <- _.
  exists wd, f. split; [assumption|].
  cbn [files_changed]. intros e He.
  destruct (parse_changed_files_In _ _ He) as (line & more & Hin & Hne & Hsplit).
  exists line, more. repeat split; try assumption.
  - pose proof (split_parts_free TAB line) as Hfree. rewrite Hsplit in Hfree.
    now inversion Hfree.
  - pose proof (split_parts_free TAB line) as Hfree. rewrite Hsplit in Hfree.
    inversion Hfree as [|? ? _ Hrest]. now inversion Hrest.
Qed.

Lemma rstrip_all_space (s : string) :
  all_chars is_space s = true -> rstrip s = "".
Proof.
  induction s as [|c s IH]; simpl; [reflexivity|].
  intros H. apply andb_true_iff in H. destruct H as [Hc Hs].
  now rewrite (IH Hs), Hc.
Qed.

Lemma rstrip_app_space (a : string) (c : ascii) :
  is_space c = true -> rstrip (a ++ String c "") = rstrip a.
Proof.
  intros Hc. induction a as [|x a IH]; simpl; [now rewrite Hc|].
  now rewrite IH.
Qed.

Lemma rstrip_keep (a b : string) :
  rstrip b = b -> b <> "" -> rstrip (a ++ b) = a ++ b.
Proof.
  intros Hb Hne. induction a as [|x a IH]; simpl; [assumption|].
  rewrite IH. destruct (a ++ b) eqn:E; [|reflexivity].
  destruct a; [simpl in E; contradiction|discriminate].
Qed.

Lemma lstrip_keep (s t : string) :
  starts_unspaced s = true -> lstrip (s ++ t) = s ++ t.
Proof.
  destruct s as [|c s]; [discriminate|]. simpl. intros H.
  now destruct (is_space c).
Qed.

Lemma rstrip_app_spaces (a t : string) :
  all_chars is_space t = true -> rstrip (a ++ t) = rstrip a.
Proof.
  intros Ht. induction a as [|x a IH]; simpl.
  - now apply rstrip_all_space.
  - now rewrite IH.
Qed.

Lemma rstrip_fixed (s : string) : rstrip (rstrip s) = rstrip s.
Proof.
  induction s as [|x s IH]; [reflexivity|]. cbn [rstrip].
  destruct (rstrip s) as [|y r] eqn:E.
  - destruct (is_space x) eqn:Hx; [reflexivity|]. simpl. now rewrite Hx.
  - cbn [rstrip]. cbn [rstrip] in IH. now rewrite IH.
Qed.

Lemma rstrip_split (s : string) :
  exists post, s = rstrip s ++ post /\ all_chars is_space post = true.
Proof.
  induction s as [|x s (post & E & Hpost)]; [now exists ""|].
  cbn [rstrip]. destruct (rstrip s) as [|y r] eqn:Er.
  - simpl in E. destruct (is_space x) eqn:Hx.
    + exists (String x s). split; [reflexivity|].
      simpl. rewrite Hx. now rewrite E.
    + exists s. split; [reflexivity|]. now rewrite E.
  - exists post. split; [|assumption]. simpl. now rewrite E at 1.
Qed.

Lemma lstrip_split (s : string) :
  exists pre,
    s = pre ++ lstrip s /\ all_chars is_space pre = true /\
    (lstrip s = "" \/ starts_unspaced (lstrip s) = true).
Proof.
  induction s as [|x s (pre & E & Hpre & Hhead)].
  - exists "". repeat split. now left.
  - simpl. destruct (is_space x) eqn:Hx.
    + exists (String x pre). simpl. rewrite Hx, <- E. now repeat split.
    + exists "". repeat split. right. simpl. now rewrite Hx.
Qed.

Lemma rstrip_suffix (a b : string) :
  rstrip (a ++ b) = a ++ b -> b <> "" -> rstrip b = b.
Proof.
  intros H Hb. induction a as [|x a IH]; [assumption|]. apply IH.
  simpl in H. destruct (rstrip (a ++ b)) as [|y r] eqn:E.
  - destruct (a ++ b) as [|z t] eqn:Eab.
    + destruct a; [simpl in Eab; contradiction|discriminate].
    + destruct (is_space x); discriminate.
  - now injection H.
Qed.

Lemma append_assoc_str (a b c : string) : (a ++ b) ++ c = a ++ b ++ c.
Proof. induction a as [|x a IH]; simpl; [reflexivity|now rewrite IH]. Qed.

Lemma append_nil_str (s : string) : s ++ "" = s.
Proof. induction s as [|c s IH]; simpl; [reflexivity|now rewrite IH]. Qed.

(** [strip] removes the whitespace at the two ends and nothing else. *)
Lemma strip_spec (out : string) :
  exists pre post,
    out = pre ++ strip out ++ post /\
    all_chars is_space pre = true /\ all_chars is_space post = true /\
    (strip out = "" \/
     (starts_unspaced (strip out) = true /\ ends_unspaced (strip out) = true)).
Proof.
  unfold strip.
  destruct (rstrip_split out) as (post & Eout & Hpost).
  destruct (lstrip_split (rstrip out)) as (pre & Er & Hpre & Hhead).
  exists pre, post. split; [|split; [assumption|split; [assumption|]]].
  - rewrite <- append_assoc_str, <- Er. exact Eout.
  - destruct Hhead as [H|H]; [now left|right]. split; [assumption|].
    unfold ends_unspaced.
    destruct (lstrip (rstrip out)) as [|c l] eqn:El; [discriminate|].
    cbn [String.eqb negb andb]. apply String.eqb_eq.
    apply (rstrip_suffix pre); [|discriminate].
    rewrite <- Er. apply rstrip_fixed.
Qed.

Lemma join_head (sep : string) (lines : list string) :
  lines <> [] -> exists t, join sep lines = hd "" lines ++ t.
Proof.
  destruct lines as [|x [|y r]]; intros H; [contradiction| |].
  - exists "". simpl. now rewrite append_nil_str.
  - now exists (sep ++ join sep (y :: r)).
Qed.

Lemma join_last (sep : string) (lines : list string) :
  lines <> [] -> exists a, join sep lines = a ++ last lines "".
Proof.
  induction lines as [|x r IH]; intros H; [contradiction|].
  destruct r as [|y r']; [now exists ""|].
  destruct IH as [a E]; [discriminate|].
  exists (x ++ sep ++ a).
  change (join sep (x :: y :: r')) with (x ++ sep ++ join sep (y :: r')).
  change (last (x :: y :: r') "") with (last (y :: r') "").
  rewrite E. now rewrite !append_assoc_str.
Qed.

Lemma ends_unspaced_spec (s : string) :
  ends_unspaced s = true -> rstrip s = s /\ s <> "".
Proof.
  unfold ends_unspaced. intros H. apply andb_true_iff in H.
  destruct H as [Hne Hr]. split; [now apply String.eqb_eq|].
  intros ->. discriminate.
Qed.

(** An output whose first character and whose last character before the
    final whitespace are no whitespace is left alone by [strip], the
    final whitespace apart. *)
Lemma strip_lines (lines : list string) (tail : string) :
  lines <> [] ->
  starts_unspaced (hd "" lines) = true ->
  ends_unspaced (last lines "") = true ->
  all_chars is_space tail = true ->
  strip (join (String LF "") lines ++ tail) = join (String LF "") lines.
Proof.
  intros Hne Hhead Hlast Htail. unfold strip.
  rewrite (rstrip_app_spaces _ _ Htail).
  destruct (ends_unspaced_spec _ Hlast) as [Hr Hl].
  assert (HrJ : rstrip (join (String LF "") lines) = join (String LF "") lines).
  { destruct (join_last (String LF "") lines Hne) as [a ->].
    now apply rstrip_keep. }
  rewrite HrJ.
  destruct (join_head (String LF "") lines Hne) as [t ->].
  now apply lstrip_keep.
Qed.

(** The entries of such an output are those of its lines, in order. *)
Lemma parse_output_lines (lines : list string) (tail : string) :
  lines <> [] ->
  Forall (fun line => has_char LF line = false) lines ->
  starts_unspaced (hd "" lines) = true ->
  ends_unspaced (last lines "") = true ->
  all_chars is_space tail = true ->
  parse_changed_files (join (String LF "") lines ++ tail)
    = flat_map (parse_line []) lines.
Proof.
  intros Hne Hfree Hhead Hlast Htail.
  unfold parse_changed_files.
  rewrite (strip_lines lines tail Hne Hhead Hlast Htail), parse_fold.
  now rewrite split_join.
Qed.

(** C6, as stated, fails.  The output is stripped as a whole before it is
    split into lines, so whitespace at its very end is lost: the last
    line [M<TAB>foo ] has the two fields [M] and [foo ] and gives the
    filename [foo]; the last line [M<TAB> ] has two fields and gives no
    entry. *)
Lemma name_status_counterexample :
  (exists r log,
     analyze_file_changes
       (repo_host "" "" ("M" ++ String TAB ("foo " ++ String LF "")))
       "main" true 500 [] = (Report r, log) /\
     split TAB ("M" ++ String TAB "foo ") = ["M"; "foo "] /\
     files_changed r = [{| status := "M"; filename := "foo" |}] /\
     "foo" <> "foo ")
  /\
  (exists r log,
     analyze_file_changes
       (repo_host "" "" ("M" ++ String TAB (" " ++ String LF "")))
       "main" true 500 [] = (Report r, log) /\
     split TAB ("M" ++ String TAB " ") = ["M"; " "] /\
     files_changed r = []).
Proof.
  split; eexists; eexists; (split; [reflexivity|]);
    repeat split; try reflexivity; discriminate.
Qed.

(** C6, amended.  The parsing of the name-status output is total and
    never raises.  The output is first stripped of the whitespace at its
    two ends, and of nothing else; the lines of what remains are visited
    in order, each adding its own entries: a line of exactly two
    tab-separated fields adds one entry, whose status and filename are
    the two fields, and a line with a single field (no tab), the empty
    line included, adds nothing.  So when the first line of the output
    starts with a character that is no whitespace and the last line ends
    with one, before the final newline, every line of the output is
    parsed as printed.  Whatever the output, once the three commands have
    succeeded the tool returns a report holding the parsed entries, not
    an error. *)
Theorem name_status_parsing :
  (forall out,
     exists pre post,
       out = pre ++ strip out ++ post /\
       all_chars is_space pre = true /\ all_chars is_space post = true /\
       (strip out = "" \/
        (starts_unspaced (strip out) = true /\
         ends_unspaced (strip out) = true))) /\
  (forall out,
     parse_changed_files out
       = flat_map (parse_line []) (split LF (strip out))) /\
  (forall acc a b,
     has_char TAB a = false -> has_char TAB b = false ->
     parse_line acc (a ++ String TAB b)
       = (acc ++ [{| status := a; filename := b |}])%list) /\
  (forall acc line, has_char TAB line = false -> parse_line acc line = acc) /\
  (forall lines,
     lines <> [] ->
     Forall (fun line => has_char LF line = false) lines ->
     starts_unspaced (hd "" lines) = true ->
     ends_unspaced (last lines "") = true ->
     parse_changed_files (join (String LF "") lines ++ String LF "")
       = flat_map (parse_line []) lines) /\
  (forall h base_branch include_diff max_diff_lines wd others d s f log,
     list_roots h = inr (wd :: others) ->
     git h (diff_cmd base_branch) wd = inr d -> returncode d = 0%Z ->
     git h (stats_cmd base_branch) wd = inr s -> returncode s = 0%Z ->
     git h (files_cmd base_branch) wd = inr f -> returncode f = 0%Z ->
     exists r,
       fst (analyze_file_changes h base_branch include_diff max_diff_lines log)
         = Report r /\
       files_changed r = parse_changed_files (stdout f)).
Proof.
  split; [exact strip_spec|].
  split; [intros out; unfold parse_changed_files; now rewrite parse_fold|].
  split.
  { intros acc a b Ha Hb.
    now apply (parse_line_fields acc _ a b []), split_two_fields. }
  split; [intros acc line; apply parse_line_one_field|].
  split.
  { intros lines Hne Hfree Hhead Hlast.
    now apply parse_output_lines. }
  intros h base_branch include_diff max_diff_lines wd others d s f log
    Hroots Hd Hd0 Hs Hs0 Hf Hf0.
  rewrite (analyze_ok h base_branch include_diff max_diff_lines wd others d s f log)
    by assumption.
  eexists. split; reflexivity.
Qed.



(** C10.  With the three commands succeeding, the calls with
    [include_diff] true and false run the same three commands, the diff
    command first, and return reports with the same [stats],
    [total_diff_lines] (the line count of the diff output) and
    [files_changed]; with [include_diff] false the [diff] field is the
    placeholder. *)
Theorem include_diff_frame (h : Host) (base_branch : string) (n : Z)
    (wd : string) (others : list string) (d s f : CompletedProcess)
    (log : list Invocation) :
  list_roots h = inr (wd :: others) ->
  git h (diff_cmd base_branch) wd = inr d -> returncode d = 0%Z ->
  git h (stats_cmd base_branch) wd = inr s -> returncode s = 0%Z ->
  git h (files_cmd base_branch) wd = inr f -> returncode f = 0%Z ->
  exists r_with r_without log',
    analyze_file_changes h base_branch true n log = (Report r_with, log') /\
    analyze_file_changes h base_branch false n log = (Report r_without, log') /\
    stats r_with = stats r_without /\
    total_diff_lines r_with = total_diff_lines r_without /\
    files_changed r_with = files_changed r_without /\
    total_diff_lines r_without = len (split LF (stdout d)) /\
    diff r_without = "Diff not included (set include_diff=true to see it)" /\
    log' = (log ++ [ {| argv := diff_cmd base_branch; cwd := wd |};
                     {| argv := stats_cmd base_branch; cwd := wd |};
                     {| argv := files_cmd base_branch; cwd := wd |} ])%list.
Proof.
  intros Hroots Hd Hd0 Hs Hs0 Hf Hf0.
  eexists; eexists; eexists.
  split; [apply (analyze_ok h base_branch true n wd others d s f log); assumption|].
  split; [apply (analyze_ok h base_branch false n wd others d s f log); assumption|].
  repeat split.
Qed.

(** * Dictionaries *)

Section Dict.

Context {V : Type}.

Lemma dict_get_set_same (d : dict V) (k : string) (v : V) :
  dict_get (dict_set d k v) k = Some v.
Proof.
  induction d as [|[k' v'] d IH]; simpl.
  - now rewrite String.eqb_refl.
  - destruct (String.eqb k' k) eqn:E; simpl; now rewrite E.
Qed.

Lemma dict_get_set_other (d : dict V) (k k' : string) (v : V) :
  k <> k' -> dict_get (dict_set d k v) k' = dict_get d k'.
Proof.
  intros Hne. induction d as [|[k0 v0] d IH]; simpl.
  - destruct (String.eqb_spec k k'); [contradiction|reflexivity].
  - destruct (String.eqb_spec k0 k) as [->|Hk]; simpl.
    + destruct (String.eqb_spec k k'); [contradiction|reflexivity].
    + now rewrite IH.
Qed.

Lemma dict_mem_set (d : dict V) (k k' : string) (v : V) :
  dict_mem d k' = true \/ k' = k -> dict_mem (dict_set d k v) k' = true.
Proof.
  unfold dict_mem. intros H.
  destruct (String.eqb_spec k k') as [->|Hne].
  - now rewrite dict_get_set_same.
  - rewrite dict_get_set_other by assumption.
    destruct H as [H|H]; [assumption|congruence].
Qed.

Lemma dict_set_fresh (d : dict V) (k : string) (v : V) :
  dict_get d k = None -> dict_set d k v = (d ++ [(k, v)])%list.
Proof.
  induction d as [|[k' v'] d IH]; simpl; [reflexivity|].
  destruct (String.eqb k' k); [discriminate|].
  intros H. now rewrite IH.
Qed.

Lemma dict_get_app_fresh (d : dict V) (k k' : string) (v : V) :
  k <> k' -> dict_get d k' = None -> dict_get (d ++ [(k, v)])%list k' = None.
Proof.
  intros Hne. induction d as [|[k0 v0] d IH]; simpl.
  - destruct (String.eqb_spec k k'); [contradiction|reflexivity].
  - destruct (String.eqb k0 k'); [discriminate|assumption].
Qed.

Lemma dict_get_middle (pre post : dict V) (k : string) (v : V) :
  ~ In k (dict_keys pre) -> dict_get (pre ++ (k, v) :: post)%list k = Some v.
Proof.
  induction pre as [|[k0 v0] pre IH]; simpl; intros H.
  - now rewrite String.eqb_refl.
  - destruct (String.eqb_spec k0 k) as [->|_]; [tauto|]. apply IH. tauto.
Qed.

Lemma dict_set_middle (pre post : dict V) (k : string) (v w : V) :
  ~ In k (dict_keys pre) ->
  dict_set (pre ++ (k, v) :: post)%list k w = (pre ++ (k, w) :: post)%list.
Proof.
  induction pre as [|[k0 v0] pre IH]; simpl; intros H.
  - now rewrite String.eqb_refl.
  - destruct (String.eqb_spec k0 k) as [->|_]; [tauto|]. rewrite IH; tauto.
Qed.

End Dict.

(** * The template registry *)

Lemma add_template_set (templates : dict TemplateEntry) (f : TemplateFile) :
  add_template templates f = dict_set templates (key_of f) (entry_of f).
Proof. unfold add_template, key_of, entry_of. now destruct (file_read f). Qed.

(** The entry of a file stays under its key as long as no later file has
    that key. *)
Lemma registry_last_wins (post : list TemplateFile) (templates : dict TemplateEntry)
    (k : string) (v : TemplateEntry) :
  dict_get templates k = Some v ->
  (forall g, In g post -> key_of g <> k) ->
  dict_get (fold_left add_template post templates) k = Some v.
Proof.
  revert templates. induction post as [|g post IH]; intros templates Hget Hpost.
  - assumption.
  - simpl. apply IH.
    + rewrite add_template_set, dict_get_set_other; [assumption|].
      apply Hpost. now left.
    + intros g' Hg'. apply Hpost. now right.
Qed.

Lemma registry_keeps_keys (files : list TemplateFile) (templates : dict TemplateEntry)
    (k : string) :
  dict_mem templates k = true ->
  dict_mem (fold_left add_template files templates) k = true.
Proof.
  revert templates. induction files as [|g files IH]; intros templates H.
  - assumption.
  - simpl. apply IH. rewrite add_template_set. apply dict_mem_set. now left.
Qed.

Lemma registry_has_every_key (files : list TemplateFile)
    (templates : dict TemplateEntry) (g : TemplateFile) :
  In g files ->
  dict_mem (fold_left add_template files templates) (key_of g) = true.
Proof.
  revert templates. induction files as [|x files IH]; intros templates Hin.
  - contradiction.
  - simpl. destruct Hin as [->|Hin].
    + apply registry_keeps_keys. rewrite add_template_set.
      apply dict_mem_set. now right.
    + now apply IH.
Qed.

Lemma registry_distinct_keys (files : list TemplateFile)
    (templates : dict TemplateEntry) :
  NoDup (map key_of files) ->
  (forall g, In g files -> dict_get templates (key_of g) = None) ->
  fold_left add_template files templates
    = (templates ++ map (fun g => (key_of g, entry_of g)) files)%list.
Proof.
  revert templates. induction files as [|x files IH]; intros templates Hnd Hnew.
  - simpl. now rewrite app_nil_r.
  - simpl. inversion Hnd as [|? ? Hx Hnd']; subst.
    rewrite add_template_set, dict_set_fresh by (apply Hnew; now left).
    rewrite IH; [now rewrite <- app_assoc | assumption |].
    intros g Hg. apply dict_get_app_fresh.
    + intros E. apply Hx. rewrite E. now apply in_map.
    + apply Hnew. now right.
Qed.

(** C7, as stated, fails.  [bug.md] cannot be read and [bug.md.md] can:
    the base name of the second is the full name of the first, so both
    are entered under the key ["bug.md"] and the later one replaces the
    earlier.  In one order the failing file has no error entry in the
    result; in the other the readable file is not returned. *)
Lemma read_failure_counterexample :
  (get_pr_templates (a_dir [unreadable "bug.md"; readable "bug.md.md" "text"])
     = Templates
         [("bug.md", Template "bug.md" "/srv/templates/bug.md.md" "text")]
         1 "/srv/templates")
  /\
  (get_pr_templates (a_dir [readable "bug.md.md" "text"; unreadable "bug.md"])
     = Templates
         [("bug.md",
           Unreadable "bug.md"
             "Failed to read template: [Errno 13] Permission denied")]
         1 "/srv/templates").
Proof. split; reflexivity. Qed.

(** C7, amended.  When the templates directory exists, a file that cannot
    be read does not fail the call: a mapping is returned, every file
    discovered has its key in it, and the entry of the failing file, its
    full filename with an error message and no content, is the one found
    under that filename provided no file discovered after it has the same
    key (the key of a readable file is its base name, that of an
    unreadable file its full filename; the last one read wins).  When no
    two files have the same key the mapping holds exactly one entry per
    file, in discovery order. *)
Theorem read_failure_non_fatal (fs : TemplatesDir)
    (pre post : list TemplateFile) (f : TemplateFile) (e : string) :
  dir_exists fs = true -> dir_is_dir fs = true ->
  glob_md fs = (pre ++ f :: post)%list ->
  file_read f = inl e ->
  (forall g, In g post -> key_of g <> file_name f) ->
  exists templates,
    get_pr_templates fs = Templates templates (len templates) (dir_str fs) /\
    dict_get templates (file_name f)
      = Some (Unreadable (file_name f) ("Failed to read template: " ++ e)) /\
    (forall g, In g (glob_md fs) -> dict_mem templates (key_of g) = true) /\
    (NoDup (map key_of (glob_md fs)) ->
     templates = map (fun g => (key_of g, entry_of g)) (glob_md fs)).
Proof.
  intros Hex Hdir Hfiles Hread Hpost.
  exists (fold_left add_template (glob_md fs) []).
  split; [|split; [|split]].
  - unfold get_pr_templates. now rewrite Hex, Hdir.
  - rewrite Hfiles, fold_left_app. simpl.
    apply registry_last_wins; [|assumption].
    rewrite add_template_set. unfold key_of, entry_of. rewrite Hread.
    apply dict_get_set_same.
  - intros g Hg. now apply registry_has_every_key.
  - intros Hnd. now rewrite registry_distinct_keys.
Qed.

(** * The recommender *)

(** ** Keyword scores *)

Section Scores.

Variable summary_lower : string.

Lemma increment_middle (pre post : dict Z) (t : string) (v : Z) :
  ~ In t (dict_keys pre) ->
  increment (pre ++ (t, v) :: post)%list t = (pre ++ (t, v + 1)%Z :: post)%list.
Proof.
  intros H. unfold increment.
  now rewrite dict_get_middle, dict_set_middle.
Qed.

Lemma count_words_middle (words : list string) (pre post : dict Z)
    (t : string) (v : Z) :
  ~ In t (dict_keys pre) ->
  count_words summary_lower t (pre ++ (t, v) :: post)%list words
    = (pre ++ (t, v + hits summary_lower words)%Z :: post)%list.
Proof.
  intros H. revert v. unfold count_words.
  induction words as [|w words IH]; intros v; simpl.
  - unfold hits, len. simpl. now rewrite Z.add_0_r.
  - unfold hits. cbn [filter]. destruct (contains w summary_lower).
    + rewrite increment_middle, IH by assumption.
      unfold hits, len. cbn [List.length]. do 2 f_equal. f_equal. lia.
    + apply IH.
Qed.

Lemma score_every_category (kws : dict (list string)) (scored : dict Z) :
  NoDup (dict_keys kws) ->
  (forall k, In k (dict_keys kws) -> ~ In k (dict_keys scored)) ->
  fold_left (fun scores kw => count_words summary_lower (fst kw) scores (snd kw))
    kws (scored ++ map (fun kw => (fst kw, 0%Z)) kws)%list
  = (scored ++ map (fun kw => (fst kw, hits summary_lower (snd kw))) kws)%list.
Proof.
  revert scored. induction kws as [|[t words] kws IH]; intros scored Hnd Hnew.
  - reflexivity.
  - inversion Hnd as [|? ? Ht Hnd']; subst. cbn [fold_left map fst snd].
    rewrite count_words_middle by (apply Hnew; now left).
    change ((scored ++ (t, (0 + hits summary_lower words)%Z)
               :: map (fun kw => (fst kw, 0%Z)) kws)%list)
      with ((scored ++ [(t, (0 + hits summary_lower words)%Z)]
               ++ map (fun kw => (fst kw, 0%Z)) kws)%list).
    rewrite app_assoc, IH; [now rewrite <- app_assoc | assumption |].
    intros k Hk. unfold dict_keys. rewrite map_app, in_app_iff.
    intros [Hin|[<-|[]]].
    + apply (Hnew k); [now right | assumption].
    + now apply Ht.
Qed.

End Scores.

Lemma keywords_distinct : NoDup (dict_keys keywords).
Proof.
  unfold dict_keys, keywords. cbn [map fst].
  repeat (constructor; [cbn [In]; intuition discriminate|]).
  constructor.
Qed.

(** The two loops give each category the number of its keywords that
    occur in the lowered summary, in declaration order. *)
Lemma keyword_scores_by_category (changes_summary : string) :
  keyword_scores changes_summary
    = map (fun c => (c, score_of changes_summary c)) categories.
Proof.
  etransitivity.
  - exact (score_every_category (lower changes_summary) keywords []
             keywords_distinct (fun _ _ H => H)).
  - reflexivity.
Qed.

(** ** The first maximum *)

Lemma keep_greater_first (rest : list (string * Z)) :
  forall (pre : list (string * Z)) (x : string * Z) (mid : list (string * Z)),
    Forall (fun y => (snd y < snd x)%Z) pre ->
    Forall (fun y => (snd y <= snd x)%Z) mid ->
    exists pre' post,
      (pre ++ x :: mid ++ rest)%list
        = (pre' ++ fold_left keep_greater rest x :: post)%list /\
      Forall (fun y => (snd y < snd (fold_left keep_greater rest x))%Z) pre' /\
      Forall (fun y => (snd y <= snd (fold_left keep_greater rest x))%Z) post.
Proof.
  induction rest as [|y rest IH]; intros pre x mid Hpre Hmid.
  - exists pre, mid. now rewrite app_nil_r.
  - cbn [fold_left]. unfold keep_greater at 2 4 6.
    destruct (Z.gtb_spec (snd y) (snd x)) as [Hgt|Hle].
    + destruct (IH (pre ++ x :: mid)%list y []) as (pre' & post & E & H1 & H2).
      * apply Forall_app. split; [|constructor].
        -- eapply Forall_impl; [|exact Hpre]. simpl. intros; lia.
        -- lia.
        -- eapply Forall_impl; [|exact Hmid]. simpl. intros; lia.
      * constructor.
      * exists pre', post. split; [|now split].
        rewrite <- E. now rewrite <- app_assoc.
    + destruct (IH pre x (mid ++ [y])%list) as (pre' & post & E & H1 & H2).
      * assumption.
      * apply Forall_app. split; [assumption|]. constructor; [lia|constructor].
      * exists pre', post. split; [|now split].
        rewrite <- E. now rewrite <- app_assoc.
Qed.

Lemma max_by_snd_first (items : list (string * Z)) (best : string * Z) :
  max_by_snd items = Some best ->
  exists pre post,
    items = (pre ++ best :: post)%list /\
    Forall (fun y => (snd y < snd best)%Z) pre /\
    Forall (fun y => (snd y <= snd best)%Z) post.
Proof.
  destruct items as [|x rest]; [discriminate|].
  unfold max_by_snd. intros [= <-].
  exact (keep_greater_first rest [] x [] (Forall_nil _) (Forall_nil _)).
Qed.

Lemma index_of_fresh (l1 l3 : list string) (t : string) :
  ~ In t l1 -> index_of t (l1 ++ t :: l3) = List.length l1.
Proof.
  induction l1 as [|x l1 IH]; simpl; intros H.
  - now rewrite String.eqb_refl.
  - destruct (String.eqb_spec x t) as [->|_]; [tauto|]. rewrite IH; tauto.
Qed.

Lemma index_of_lt_in (c : string) (l1 l2 : list string) :
  (index_of c (l1 ++ l2) < List.length l1)%nat -> In c l1.
Proof.
  induction l1 as [|x l1 IH]; simpl; intros H; [lia|].
  destruct (String.eqb_spec x c) as [->|_]; [now left|].
  right. apply IH. lia.
Qed.

(** [max] over the scores of distinct categories picks the first of those
    with the highest score. *)
Lemma first_maximum (cats : list string) (sc : string -> Z) (t : string) (v : Z) :
  NoDup cats ->
  max_by_snd (map (fun c => (c, sc c)) cats) = Some (t, v) ->
  v = sc t /\ In t cats /\
  forall c, In c cats ->
    (sc c <= v)%Z /\ ((index_of c cats < index_of t cats)%nat -> (sc c < v)%Z).
Proof.
  intros Hnd Hmax.
  destruct (max_by_snd_first _ _ Hmax) as (pre & post & E & Hpre & Hpost).
  apply map_eq_app in E. destruct E as (l1 & l2 & -> & <- & E2).
  destruct l2 as [|t' l3]; [discriminate|].
  injection E2 as -> <- <-.
  rewrite Forall_map in Hpre, Hpost. rewrite Forall_forall in Hpre, Hpost.
  cbn [snd] in Hpre, Hpost.
  assert (Hfresh : ~ In t l1).
  { apply NoDup_remove_2 in Hnd. rewrite in_app_iff in Hnd. tauto. }
  split; [reflexivity|]. split; [apply in_elt|].
  intros c Hc. rewrite (index_of_fresh l1 l3 t Hfresh).
  apply in_app_iff in Hc. destruct Hc as [Hc|[<-|Hc]].
  - specialize (Hpre c Hc). split; [lia|intros _; assumption].
  - split; [lia|]. rewrite (index_of_fresh l1 l3 t Hfresh). lia.
  - split; [now apply Hpost|]. intros Hlt.
    apply Hpre. now apply index_of_lt_in in Hlt.
Qed.

Lemma categories_distinct : NoDup categories.
Proof. exact keywords_distinct. Qed.

Lemma best_match_first (changes_summary t : string) (v : Z) :
  best_match changes_summary = Some (t, v) ->
  v = score_of changes_summary t /\ In t categories /\
  forall c, In c categories ->
    (score_of changes_summary c <= v)%Z /\
    (declared_before c t = true -> (score_of changes_summary c < v)%Z).
Proof.
  unfold best_match. rewrite keyword_scores_by_category. intros H.
  destruct (first_maximum _ _ _ _ categories_distinct H) as (Hv & Ht & Hall).
  split; [assumption|]. split; [assumption|].
  intros c Hc. destruct (Hall c Hc) as [Hle Hlt]. split; [assumption|].
  unfold declared_before. intros Hb. apply Hlt. now apply Nat.ltb_lt.
Qed.

Lemma best_match_some (changes_summary : string) :
  exists t v, best_match changes_summary = Some (t, v).
Proof.
  unfold best_match. rewrite keyword_scores_by_category.
  unfold categories, keywords, dict_keys, max_by_snd. cbn [map fst].
  match goal with |- context [Some ?b] => exists (fst b), (snd b) end.
  now rewrite <- surjective_pairing.
Qed.

(** A fact about every category, by running through the declared ones. *)
Ltac each_category H :=
  unfold categories, keywords, dict_keys in H; cbn [map fst In] in H;
  repeat (destruct H as [<-|H];
          [vm_compute; first [discriminate | reflexivity]|]);
  contradiction.

(** Two categories are the same, or one is declared before the other. *)
Lemma declared_order_total (a b : string) :
  In a categories -> In b categories ->
  a = b \/ declared_before a b = true \/ declared_before b a = true.
Proof.
  unfold categories, keywords, dict_keys. cbn [map fst In].
  intros Ha Hb.
  repeat (destruct Ha as [<-|Ha]); try contradiction;
    repeat (destruct Hb as [<-|Hb]); try contradiction;
    ((now left) || (right; left; reflexivity) || (right; right; reflexivity)).
Qed.

(** ** The three stages *)

Lemma get_pr_templates_count (fs : TemplatesDir) (templates : dict TemplateEntry)
    (count : Z) (dir : string) :
  get_pr_templates fs = Templates templates count dir -> count = len templates.
Proof.
  unfold get_pr_templates.
  destruct (negb (dir_exists fs) || negb (dir_is_dir fs)); [discriminate|].
  now intros [= <- <- _].
Qed.

Lemma len_zero_nil {A} (l : list A) : (len l =? 0)%Z = true -> l = [].
Proof. destruct l; [reflexivity|discriminate]. Qed.

(** Past the two checks on the registry, the tool is its three stages in
    order. *)
Lemma suggest_template_stages (fs : TemplatesDir) (templates : dict TemplateEntry)
    (count : Z) (dir changes_summary change_type : string) :
  get_pr_templates fs = Templates templates count dir ->
  templates <> [] ->
  suggest_template fs changes_summary change_type =
    match direct_match templates change_type with
    | Some r => r
    | None =>
        match best_match changes_summary with
        | None => NoSuggestion "max() iterable argument is empty"
        | Some best =>
            match keyword_match templates best with
            | Some r => r
            | None => default_template templates
            end
        end
    end.
Proof.
  intros H Hne. unfold suggest_template. rewrite H.
  rewrite (get_pr_templates_count _ _ _ _ H).
  destruct (len templates =? 0)%Z eqn:E; [|reflexivity].
  now apply len_zero_nil in E.
Qed.

(** C3, as stated, fails.  In ["fix add guide"] the categories feature and
    docs have exactly one keyword each and no category scores higher, yet
    bug, which also scores one and is declared before both, is selected,
    not feature. *)
Lemma tie_break_counterexample :
  score_of "fix add guide" "feature" = 1%Z /\
  score_of "fix add guide" "docs" = 1%Z /\
  declared_before "feature" "docs" = true /\
  (forall c, In c categories -> (score_of "fix add guide" c <= 1)%Z) /\
  best_match "fix add guide" = Some ("bug", 1%Z) /\
  best_match "fix add guide" <> Some ("feature", 1%Z) /\
  suggest_template
    (a_dir [readable "bug.md" "B"; readable "feature.md" "F";
            readable "docs.md" "D"])
    "fix add guide" "unknown"
  = Suggestion "bug" (Template "bug" "/srv/templates/bug.md" "B") low
      "Based on 1 keyword matches in the changes summary".
Proof.
  repeat split; try reflexivity; try discriminate.
  intros c Hc. each_category Hc.
Qed.

(** C3, amended.  The keyword stage selects the first category, in the
    declared order bug, feature, docs, refactor, test, security,
    performance, among those with the highest keyword count: no category
    scores more than the selected one and every category declared before
    it scores strictly less.  In particular, when two categories have
    exactly one keyword each in the summary, no category scores more than
    one, and no category declared before the earlier of the two scores
    one, the earlier of the two is selected.  The selected category is the
    one the tool suggests when stage 1 finds nothing, the score is
    positive and the category has a template. *)
Theorem keyword_tie_break (changes_summary : string) :
  (exists t,
     best_match changes_summary = Some (t, score_of changes_summary t) /\
     In t categories /\
     forall c, In c categories ->
       (score_of changes_summary c <= score_of changes_summary t)%Z /\
       (declared_before c t = true ->
        (score_of changes_summary c < score_of changes_summary t)%Z)) /\
  (forall a b,
     In a categories -> In b categories -> declared_before a b = true ->
     score_of changes_summary a = 1%Z -> score_of changes_summary b = 1%Z ->
     (forall c, In c categories -> (score_of changes_summary c <= 1)%Z) ->
     (forall c, In c categories -> declared_before c a = true ->
                (score_of changes_summary c < 1)%Z) ->
     best_match changes_summary = Some (a, 1%Z)) /\
  (forall fs templates count dir change_type t score template,
     get_pr_templates fs = Templates templates count dir ->
     direct_match templates change_type = None ->
     best_match changes_summary = Some (t, score) ->
     (score > 0)%Z ->
     dict_get templates t = Some template ->
     suggest_template fs changes_summary change_type
       = Suggestion t template (if (score >? 2)%Z then medium else low)
           ("Based on " ++ str score ++ " keyword matches in the changes summary")).
Proof.
  destruct (best_match_some changes_summary) as (t & v & Hbest).
  destruct (best_match_first _ _ _ Hbest) as (Hv & Ht & Hall).
  split; [|split].
  - exists t. rewrite <- Hv.
    split; [assumption|]. split; [assumption|exact Hall].
  - intros a b Ha Hb Hab Hsa Hsb Hmax Hbefore.
    assert (Hv1 : v = 1%Z).
    { apply Z.le_antisymm.
      - rewrite Hv. now apply Hmax.
      - rewrite <- Hsa. now apply Hall. }
    rewrite Hbest, Hv1. do 2 f_equal.
    destruct (declared_order_total a t Ha Ht) as [E|[E|E]].
    + now symmetry.
    + apply (Hall a Ha) in E. lia.
    + apply (Hbefore t Ht) in E. lia.
  - intros fs templates count dir change_type t' score template
      Hreg Hdirect Hbest' Hscore Htemplate.
    rewrite (suggest_template_stages fs templates count dir) by
      (assumption || (intros ->; discriminate)).
    rewrite Hdirect, Hbest'. unfold keyword_match.
    destruct (Z.gtb_spec score 0) as [_|]; [|lia].
    now rewrite Htemplate.
Qed.

(** C4.  Stage 2 does not fall back on the next best category.  When
    stage 1 finds nothing and the category selected by the scores has a
    positive score but no template, stage 2 gives nothing and the tool
    answers with its default: the template named feature with confidence
    low if there is one, otherwise the first entry of the registry with
    confidence low. *)
Theorem keyword_stage_single_shot (fs : TemplatesDir)
    (templates : dict TemplateEntry) (count : Z)
    (dir changes_summary change_type t : string) (score : Z) :
  get_pr_templates fs = Templates templates count dir ->
  templates <> [] ->
  direct_match templates change_type = None ->
  best_match changes_summary = Some (t, score) ->
  (score > 0)%Z ->
  dict_mem templates t = false ->
  keyword_match templates (t, score) = None /\
  (forall template,
     dict_get templates "feature" = Some template ->
     suggest_template fs changes_summary change_type
       = Suggestion "feature" template low
           "No strong match found, defaulting to feature template") /\
  (dict_mem templates "feature" = false ->
   exists first_template_name template others,
     templates = (first_template_name, template) :: others /\
     suggest_template fs changes_summary change_type
       = Suggestion first_template_name template low
           "No match found, using first available template").
Proof.
  intros Hreg Hne Hdirect Hbest Hscore Hmissing.
  assert (Hstage2 : keyword_match templates (t, score) = None).
  { unfold keyword_match. unfold dict_mem in Hmissing.
    destruct (score >? 0)%Z; [|reflexivity].
    now destruct (dict_get templates t). }
  assert (Hrun : suggest_template fs changes_summary change_type
                 = default_template templates).
  { rewrite (suggest_template_stages fs templates count dir) by assumption.
    now rewrite Hdirect, Hbest, Hstage2. }
  split; [assumption|]. split.
  - intros template Hfeature. rewrite Hrun. unfold default_template.
    now rewrite Hfeature.
  - intros Hnofeature. rewrite Hrun. unfold default_template.
    unfold dict_mem in Hnofeature.
    destruct (dict_get templates "feature"); [discriminate|].
    destruct templates as [|[k v] others]; [contradiction|].
    now exists k, v, others.
Qed.

(** C5.  With the change type ["fix"] and a template named bug in the
    registry, the tool suggests bug with confidence high, whatever the
    summary. *)
Theorem direct_mapping_wins (fs : TemplatesDir) (templates : dict TemplateEntry)
    (count : Z) (dir changes_summary : string) (template : TemplateEntry) :
  get_pr_templates fs = Templates templates count dir ->
  dict_get templates "bug" = Some template ->
  suggest_template fs changes_summary "fix"
    = Suggestion "bug" template high "Direct match for change type 'fix'".
Proof.
  intros Hreg Hbug.
  rewrite (suggest_template_stages fs templates count dir) by
    (assumption || (intros ->; discriminate)).
  unfold direct_match.
  change (strip (lower "fix")) with "fix".
  change (dict_get common_types "fix") with (Some "bug").
  cbn [String.eqb Ascii.eqb Bool.eqb negb]. now rewrite Hbug.
Qed.

(** C8.  When the templates directory exists and holds no template, the
    tool returns the error ["No templates available"] with no suggestion,
    whatever its arguments. *)
Theorem empty_registry (fs : TemplatesDir) (changes_summary change_type : string) :
  dir_exists fs = true -> dir_is_dir fs = true -> glob_md fs = [] ->
  suggest_template fs changes_summary change_type
    = NoSuggestion "No templates available".
Proof.
  intros Hex Hdir Hfiles. unfold suggest_template, get_pr_templates.
  now rewrite Hex, Hdir, Hfiles.
Qed.

(** * The statements at concrete inputs *)

Lemma truncation_policy_witness :
  exists r log',
    analyze_file_changes demo_host "main" true 1 [] = (Report r, log') /\
    total_diff_lines r = 3%Z /\
    len (split LF (diff r)) = 3%Z /\
    last (split LF (diff r)) "" = "... Output truncated. Showing 1 of 3 lines ...".
Proof.
  destruct (truncation_policy demo_host "main" 1 "/repo" [] _ _ _ []
              ltac:(lia) eq_refl eq_refl eq_refl eq_refl eq_refl eq_refl eq_refl)
    as (r & log' & Hrun & Htotal & _ & Hlong & _).
  destruct (Hlong ltac:(reflexivity)) as (_ & Hcount & Hlast & _).
  exists r, log'. repeat split; assumption.
Defined.

Lemma changed_files_from_fields_witness :
  exists wd f,
    git demo_host (files_cmd "main") wd = inr f /\
    forall e, In e [{| status := "M"; filename := "server.py" |}] ->
      exists line more,
        In line (split LF (strip (stdout f))) /\
        line <> "" /\
        split TAB line = status e :: filename e :: more /\
        has_char TAB (status e) = false /\
        has_char TAB (filename e) = false.
Proof.
  exact (changed_files_from_fields demo_host "main" true 500 [] _ _ eq_refl).
Defined.

Lemma keyword_tie_break_witness :
  best_match "fix add" = Some ("bug", 1%Z).
Proof.
  apply (proj1 (proj2 (keyword_tie_break "fix add")) "bug" "feature").
  - simpl. tauto.
  - simpl. tauto.
  - reflexivity.
  - reflexivity.
  - reflexivity.
  - intros c Hc. each_category Hc.
  - intros c Hc. each_category Hc.
Defined.

Lemma keyword_stage_single_shot_witness :
  suggest_template (a_dir [readable "docs.md" "D"]) "fix crash" "unknown"
    = Suggestion "docs" (Template "docs" "/srv/templates/docs.md" "D") low
        "No match found, using first available template".
Proof.
  destruct (keyword_stage_single_shot (a_dir [readable "docs.md" "D"])
              _ _ _ "fix crash" "unknown" "bug" 2
              eq_refl ltac:(discriminate) eq_refl eq_refl eq_refl eq_refl)
    as (_ & _ & Hfirst).
  destruct (Hfirst eq_refl) as (k & v & others & E & Hrun).
  injection E as <- <- _. exact Hrun.
Defined.

Lemma direct_mapping_wins_witness :
  suggest_template (a_dir [readable "bug.md" "B"; readable "docs.md" "D"])
    "add a readme and a tutorial to the docs" "fix"
    = Suggestion "bug" (Template "bug" "/srv/templates/bug.md" "B") high
        "Direct match for change type 'fix'".
Proof.
  exact (direct_mapping_wins
           (a_dir [readable "bug.md" "B"; readable "docs.md" "D"])
           _ _ _ "add a readme and a tutorial to the docs" _ eq_refl eq_refl).
Defined.

Lemma name_status_parsing_witness :
  parse_changed_files
    ("M" ++ String TAB ("server.py" ++ String LF
       ("not a status line" ++ String LF
          ("A" ++ String TAB ("new file.py" ++ String LF "")))))
  = [{| status := "M"; filename := "server.py" |};
     {| status := "A"; filename := "new file.py" |}].
Proof.
  destruct name_status_parsing as (_ & _ & _ & _ & Hlines & _).
  exact (Hlines ["M" ++ String TAB "server.py"; "not a status line";
                 "A" ++ String TAB "new file.py"]
           ltac:(discriminate) ltac:(repeat constructor) eq_refl eq_refl).
Defined.

Lemma read_failure_non_fatal_witness :
  exists templates,
    get_pr_templates
      (a_dir [readable "feature.md" "F"; unreadable "bug.md"; readable "docs.md" "D"])
      = Templates templates 3 "/srv/templates" /\
    dict_get templates "bug.md"
      = Some (Unreadable "bug.md"
                "Failed to read template: [Errno 13] Permission denied") /\
    dict_mem templates "feature" = true /\
    dict_mem templates "docs" = true.
Proof.
  destruct (read_failure_non_fatal
              (a_dir [readable "feature.md" "F"; unreadable "bug.md";
                      readable "docs.md" "D"])
              [readable "feature.md" "F"] [readable "docs.md" "D"]
              (unreadable "bug.md") "[Errno 13] Permission denied"
              eq_refl eq_refl eq_refl eq_refl)
    as (templates & Hrun & Hfailed & Hkeys & Hall).
  - intros g [<-|[]]. vm_compute. discriminate.
  - exists templates.
    assert (E : templates
                = map (fun g => (key_of g, entry_of g))
                    [readable "feature.md" "F"; unreadable "bug.md";
                     readable "docs.md" "D"]).
    { apply Hall. vm_compute.
      repeat (constructor; [cbn [In]; intuition discriminate|]). constructor. }
    subst templates. repeat split; (exact Hrun || exact Hfailed).
Defined.

Lemma empty_registry_witness :
  suggest_template (a_dir []) "fixed a crash in the parser" "fix"
    = NoSuggestion "No templates available".
Proof.
  exact (empty_registry (a_dir []) _ _ eq_refl eq_refl eq_refl).
Defined.


Lemma include_diff_frame_witness :
  exists r_with r_without log',
    analyze_file_changes demo_host "main" true 1 [] = (Report r_with, log') /\
    analyze_file_changes demo_host "main" false 1 [] = (Report r_without, log') /\
    stats r_with = stats r_without /\
    total_diff_lines r_with = total_diff_lines r_without /\
    files_changed r_with = files_changed r_without /\
    total_diff_lines r_without = 3%Z /\
    diff r_without = "Diff not included (set include_diff=true to see it)".
Proof.
  destruct (include_diff_frame demo_host "main" 1 "/repo" [] _ _ _ []
              eq_refl eq_refl eq_refl eq_refl eq_refl eq_refl eq_refl)
    as (r1 & r2 & log' & H1 & H2 & Hs & Ht & Hf & Hn & Hd & _).
  exists r1, r2, log'. repeat split; assumption.
Defined.

(** * Further properties of the change inspector *)

(** ** Failures *)

(** What the tool does once the working directory is known, step by
    step. *)
Lemma analyze_unfold (h : Host) (base_branch : string) (include_diff : bool)
    (max_diff_lines : Z) (wd : string) (others : list string)
    (log : list Invocation) :
  list_roots h = inr (wd :: others) ->
  analyze_file_changes h base_branch include_diff max_diff_lines log =
    let log1 := (log ++ firstn 1 (commands base_branch wd))%list in
    let log2 := (log ++ firstn 2 (commands base_branch wd))%list in
    let log3 := (log ++ commands base_branch wd)%list in
    match git h (diff_cmd base_branch) wd with
    | inl msg => (Failed msg, log1)
    | inr d =>
        if negb (returncode d =? 0)%Z then
          (CommandFailed ("Git diff command failed: " ++ stderr d)
             (join " " (diff_cmd base_branch)), log1)
        else
          match git h (stats_cmd base_branch) wd with
          | inl msg => (Failed msg, log2)
          | inr s =>
              if negb (returncode s =? 0)%Z then
                (CommandFailed ("Git diff --stat command failed: " ++ stderr s)
                   (join " " (stats_cmd base_branch)), log2)
              else
                match git h (files_cmd base_branch) wd with
                | inl msg => (Failed msg, log3)
                | inr f =>
                    if negb (returncode f =? 0)%Z then
                      (CommandFailed
                         ("Git diff --name-status command failed: " ++ stderr f)
                         (join " " (files_cmd base_branch)), log3)
                    else
                      (Report {|
                         stats := stdout s;
                         total_diff_lines := len (split LF (stdout d));
                         files_changed := parse_changed_files (stdout f);
                         diff := if include_diff
                                 then truncated_diff (stdout d) max_diff_lines
                                 else diff_placeholder |}, log3)
                end
          end
    end.
Proof.
  intros Hroots.
  unfold analyze_file_changes, analyze_body, bind, working_dir_of,
    subprocess_run, commands.
  rewrite Hroots. unfold ret at 1. cbv beta iota zeta. cbn [firstn].
  destruct (git h (diff_cmd base_branch) wd) as [msg|d]; [reflexivity|].
  destruct (negb (returncode d =? 0)%Z); [reflexivity|].
  destruct (git h (stats_cmd base_branch) wd) as [msg|s];
    [now rewrite <- app_assoc|].
  destruct (negb (returncode s =? 0)%Z); [unfold ret; now rewrite <- app_assoc|].
  destruct (git h (files_cmd base_branch) wd) as [msg|f];
    [now rewrite <- !app_assoc|].
  destruct (negb (returncode f =? 0)%Z); unfold ret; now rewrite <- !app_assoc.
Qed.

Lemma nonzero_negb (z : Z) : z <> 0%Z -> negb (z =? 0)%Z = true.
Proof. intros H. now destruct (Z.eqb_spec z 0). Qed.

(** X1.  When [git diff] exits with a non-zero status the tool returns
    the error of that command, its stderr after ["Git diff command
    failed: "] and the command line ["git diff <base>...HEAD"], and starts
    no other command. *)
Theorem diff_failure_aborts (h : Host) (base_branch : string)
    (include_diff : bool) (max_diff_lines : Z) (wd : string)
    (others : list string) (d : CompletedProcess) (log : list Invocation) :
  list_roots h = inr (wd :: others) ->
  git h (diff_cmd base_branch) wd = inr d ->
  returncode d <> 0%Z ->
  analyze_file_changes h base_branch include_diff max_diff_lines log =
    (CommandFailed ("Git diff command failed: " ++ stderr d)
       ("git diff " ++ base_branch ++ "...HEAD"),
     (log ++ [{| argv := diff_cmd base_branch; cwd := wd |}])%list).
Proof.
  intros Hroots Hd Hrc.
  rewrite (analyze_unfold _ _ _ _ _ _ _ Hroots). cbv zeta.
  now rewrite Hd, (nonzero_negb _ Hrc).
Qed.

(** X2.  When [git diff] succeeds and [git diff --stat] exits with a
    non-zero status the tool returns the error of the second command and
    never starts the third. *)
Theorem stats_failure_aborts (h : Host) (base_branch : string)
    (include_diff : bool) (max_diff_lines : Z) (wd : string)
    (others : list string) (d s : CompletedProcess) (log : list Invocation) :
  list_roots h = inr (wd :: others) ->
  git h (diff_cmd base_branch) wd = inr d -> returncode d = 0%Z ->
  git h (stats_cmd base_branch) wd = inr s -> returncode s <> 0%Z ->
  analyze_file_changes h base_branch include_diff max_diff_lines log =
    (CommandFailed ("Git diff --stat command failed: " ++ stderr s)
       ("git diff --stat " ++ base_branch ++ "...HEAD"),
     (log ++ [{| argv := diff_cmd base_branch; cwd := wd |};
              {| argv := stats_cmd base_branch; cwd := wd |}])%list).
Proof.
  intros Hroots Hd Hd0 Hs Hrc.
  rewrite (analyze_unfold _ _ _ _ _ _ _ Hroots). cbv zeta.
  now rewrite Hd, Hd0, Hs, (nonzero_negb _ Hrc).
Qed.

(** X3.  When the first two commands succeed and
    [git diff --name-status] exits with a non-zero status the tool
    returns the error of the third command: the diff and the statistics
    already obtained are not returned. *)
Theorem files_failure_aborts (h : Host) (base_branch : string)
    (include_diff : bool) (max_diff_lines : Z) (wd : string)
    (others : list string) (d s f : CompletedProcess) (log : list Invocation) :
  list_roots h = inr (wd :: others) ->
  git h (diff_cmd base_branch) wd = inr d -> returncode d = 0%Z ->
  git h (stats_cmd base_branch) wd = inr s -> returncode s = 0%Z ->
  git h (files_cmd base_branch) wd = inr f -> returncode f <> 0%Z ->
  analyze_file_changes h base_branch include_diff max_diff_lines log =
    (CommandFailed ("Git diff --name-status command failed: " ++ stderr f)
       ("git diff --name-status " ++ base_branch ++ "...HEAD"),
     (log ++ commands base_branch wd)%list).
Proof.
  intros Hroots Hd Hd0 Hs Hs0 Hf Hrc.
  rewrite (analyze_unfold _ _ _ _ _ _ _ Hroots). cbv zeta.
  now rewrite Hd, Hd0, Hs, Hs0, Hf, (nonzero_negb _ Hrc).
Qed.

Lemma analyze_no_root (h : Host) (base_branch : string)
    (include_diff : bool) (max_diff_lines : Z) (log : list Invocation) :
  analyze_file_changes h base_branch include_diff max_diff_lines log =
    match list_roots h with
    | inl msg => (Failed msg, log)
    | inr [] => (Failed "list index out of range", log)
    | inr (wd :: _) =>
        analyze_file_changes h base_branch include_diff max_diff_lines log
    end.
Proof.
  unfold analyze_file_changes, analyze_body, bind, working_dir_of.
  now destruct (list_roots h) as [msg|[|wd others]].
Qed.

(** X4.  Without a working directory no command is started: when listing
    the roots raises, or when there is no root, the tool returns an error
    holding the text of the exception and the log of commands is
    unchanged. *)
Theorem no_root_no_command (h : Host) (base_branch : string)
    (include_diff : bool) (max_diff_lines : Z) (log : list Invocation) :
  (forall msg, list_roots h = inl msg ->
     analyze_file_changes h base_branch include_diff max_diff_lines log
       = (Failed msg, log)) /\
  (list_roots h = inr [] ->
     analyze_file_changes h base_branch include_diff max_diff_lines log
       = (Failed "list index out of range", log)).
Proof.
  rewrite analyze_no_root.
  split; [intros msg H|intros H]; now rewrite H.
Qed.

(** X5.  An exception raised by [subprocess.run] is not propagated: at
    whichever of the three commands it happens, the tool returns an error
    holding the text of the exception and starts no further command. *)
Theorem run_exception_reported (h : Host) (base_branch : string)
    (include_diff : bool) (max_diff_lines : Z) (wd : string)
    (others : list string) (msg : string) (log : list Invocation) :
  list_roots h = inr (wd :: others) ->
  (git h (diff_cmd base_branch) wd = inl msg ->
   analyze_file_changes h base_branch include_diff max_diff_lines log
     = (Failed msg, (log ++ firstn 1 (commands base_branch wd))%list)) /\
  (forall d,
     git h (diff_cmd base_branch) wd = inr d -> returncode d = 0%Z ->
     git h (stats_cmd base_branch) wd = inl msg ->
     analyze_file_changes h base_branch include_diff max_diff_lines log
       = (Failed msg, (log ++ firstn 2 (commands base_branch wd))%list)) /\
  (forall d s,
     git h (diff_cmd base_branch) wd = inr d -> returncode d = 0%Z ->
     git h (stats_cmd base_branch) wd = inr s -> returncode s = 0%Z ->
     git h (files_cmd base_branch) wd = inl msg ->
     analyze_file_changes h base_branch include_diff max_diff_lines log
       = (Failed msg, (log ++ commands base_branch wd)%list)).
Proof.
  intros Hroots.
  rewrite (analyze_unfold _ _ _ _ _ _ _ Hroots). cbv zeta.
  split; [|split].
  - intros Hd. now rewrite Hd.
  - intros d Hd Hd0 Hs. now rewrite Hd, Hd0, Hs.
  - intros d s Hd Hd0 Hs Hs0 Hf. now rewrite Hd, Hd0, Hs, Hs0, Hf.
Qed.

(** X6.  Whatever the host answers, the tool starts nothing but its three
    commands, in order, each in the directory of the first root: what it
    adds to the log is the first [k] of them, and all three when it
    returns a report. *)
Theorem only_the_three_commands (h : Host) (base_branch : string)
    (include_diff : bool) (max_diff_lines : Z) (log : list Invocation) :
  exists wd k,
    snd (analyze_file_changes h base_branch include_diff max_diff_lines log)
      = (log ++ firstn k (commands base_branch wd))%list /\
    ((0 < k)%nat -> exists others, list_roots h = inr (wd :: others)) /\
    (forall r,
       fst (analyze_file_changes h base_branch include_diff max_diff_lines log)
         = Report r -> k = 3%nat).
Proof.
  destruct (list_roots h) as [msg|[|wd others]] eqn:Hroots.
  - exists "", 0%nat. rewrite analyze_no_root, Hroots.
    cbn [fst snd firstn]. rewrite app_nil_r.
    repeat split; [lia|discriminate].
  - exists "", 0%nat. rewrite analyze_no_root, Hroots.
    cbn [fst snd firstn]. rewrite app_nil_r.
    repeat split; [lia|discriminate].
  - rewrite (analyze_unfold _ _ _ _ _ _ _ Hroots). cbv zeta.
    assert (Hwd : forall k : nat, (0 < k)%nat ->
              exists others0,
                inr (A:=string) (wd :: others) = inr (wd :: others0))
      by (intros _ _; now exists others).
    destruct (git h (diff_cmd base_branch) wd) as [m|d].
    { exists wd, 1%nat. split; [reflexivity|]. split; [apply Hwd|discriminate]. }
    destruct (negb (returncode d =? 0)%Z).
    { exists wd, 1%nat. split; [reflexivity|]. split; [apply Hwd|discriminate]. }
    destruct (git h (stats_cmd base_branch) wd) as [m|s].
    { exists wd, 2%nat. split; [reflexivity|]. split; [apply Hwd|discriminate]. }
    destruct (negb (returncode s =? 0)%Z).
    { exists wd, 2%nat. split; [reflexivity|]. split; [apply Hwd|discriminate]. }
    destruct (git h (files_cmd base_branch) wd) as [m|f].
    { exists wd, 3%nat. split; [reflexivity|]. split; [apply Hwd|reflexivity]. }
    destruct (negb (returncode f =? 0)%Z);
      exists wd, 3%nat; (split; [reflexivity|]); split;
      solve [apply Hwd | reflexivity].
Qed.

(** ** The report *)

Lemma analyze_report_fields (h : Host) (base_branch : string)
    (include_diff : bool) (max_diff_lines : Z) (log log' : list Invocation)
    (r : ChangeReport) :
  analyze_file_changes h base_branch include_diff max_diff_lines log
    = (Report r, log') ->
  exists wd d s f,
    git h (diff_cmd base_branch) wd = inr d /\
    git h (stats_cmd base_branch) wd = inr s /\
    git h (files_cmd base_branch) wd = inr f /\
    r = {| stats := stdout s;
           total_diff_lines := len (split LF (stdout d));
           files_changed := parse_changed_files (stdout f);
           diff := if include_diff
                   then truncated_diff (stdout d) max_diff_lines
                   else diff_placeholder |}.
Proof.
  intros H.
  destruct (analyze_report_inv _ _ _ _ _ _ _ H)
    as (wd & others & d & s & f & Hroots & [Hd Hd0] & [Hs Hs0] & [Hf Hf0]).
  rewrite (analyze_ok h base_branch include_diff max_diff_lines wd others d s f log)
    in H by assumption.
  injection H as <- _. now exists wd, d, s, f.
Qed.

Lemma split_length (sep : ascii) (s : string) :
  List.length (split sep s) = S (count_char sep s).
Proof.
  induction s as [|c s IH]; simpl; [reflexivity|].
  destruct (Ascii.eqb c sep); simpl; [now rewrite IH|].
  destruct (split sep s) as [|x t]; simpl in *; [discriminate|assumption].
Qed.

(** X7.  In every report [total_diff_lines] is one more than the number
    of newlines in the output of [git diff]; it is never 0, and an empty
    diff counts as one line. *)
Theorem total_lines_counts_newlines (h : Host) (base_branch : string)
    (include_diff : bool) (max_diff_lines : Z) (log log' : list Invocation)
    (r : ChangeReport) :
  analyze_file_changes h base_branch include_diff max_diff_lines log
    = (Report r, log') ->
  exists wd d,
    git h (diff_cmd base_branch) wd = inr d /\
    total_diff_lines r = (Z.of_nat (count_char LF (stdout d)) + 1)%Z /\
    (1 <= total_diff_lines r)%Z /\
    (stdout d = "" -> total_diff_lines r = 1%Z).
Proof.
  intros H.
  destruct (analyze_report_fields _ _ _ _ _ _ _ H)
    as (wd & d & s & f & Hd & _ & _ & ->).
  exists wd, d. cbn [total_diff_lines]. unfold len. rewrite split_length.
  repeat split; try assumption; try lia.
  intros ->. reflexivity.
Qed.

(** The lines of a truncated diff, whatever the sign of the cap. *)
Lemma truncated_diff_lines (diff_output : string) (n : Z) :
  (n < len (split LF diff_output))%Z ->
  split LF (truncated_diff diff_output n) =
    (match slice_to (split LF diff_output) n with
     | [] => [EmptyString]
     | kept => kept
     end ++ [EmptyString;
             truncation_notice n (len (split LF diff_output))])%list.
Proof.
  intros Hlt. unfold truncated_diff.
  destruct (Z.gtb_spec (len (split LF diff_output)) n) as [_|]; [|lia].
  rewrite split_app. f_equal.
  - destruct (slice_to (split LF diff_output) n) as [|l ls] eqn:E;
      [reflexivity|].
    rewrite <- E. apply split_join; [rewrite E; discriminate|].
    unfold slice_to. destruct (n <? 0)%Z;
      apply Forall_firstn_keeps, split_parts_free.
  - simpl. now rewrite split_free by apply truncation_notice_no_LF.
Qed.

(** X8.  A negative cap always truncates: the text returned is made of
    the lines of the diff without the last [-n] of them (a single empty
    line when none is left), an empty line, and the notice, which quotes
    the negative cap. *)
Theorem negative_cap_drops_last_lines (h : Host) (base_branch : string)
    (n : Z) (log log' : list Invocation) (r : ChangeReport) :
  analyze_file_changes h base_branch true n log = (Report r, log') ->
  (n < 0)%Z ->
  exists wd d,
    git h (diff_cmd base_branch) wd = inr d /\
    let lines := split LF (stdout d) in
    split LF (diff r) =
      (match firstn (List.length lines - Z.to_nat (- n)) lines with
       | [] => [EmptyString]
       | kept => kept
       end ++ [EmptyString; truncation_notice n (len lines)])%list.
Proof.
  intros H Hn.
  destruct (analyze_report_fields _ _ _ _ _ _ _ H)
    as (wd & d & s & f & Hd & _ & _ & ->).
  exists wd, d. split; [assumption|]. cbn [diff]. cbv zeta.
  rewrite truncated_diff_lines by (unfold len; lia).
  unfold slice_to. destruct (Z.ltb_spec n 0); [reflexivity|lia].
Qed.

Lemma join_split (sep : ascii) (s : string) :
  join (String sep EmptyString) (split sep s) = s.
Proof.
  induction s as [|c s IH]; [reflexivity|].
  cbn [split]. destruct (Ascii.eqb_spec c sep) as [->|_].
  - destruct (split sep s) as [|x t] eqn:E; [now apply split_not_nil in E|].
    change (join (String sep "") ("" :: x :: t))
      with ("" ++ String sep "" ++ join (String sep "") (x :: t)).
    now rewrite IH.
  - destruct (split sep s) as [|x t] eqn:E; [now apply split_not_nil in E|].
    destruct t as [|y t'].
    + cbn [join] in *. now rewrite IH.
    + change (join (String sep "") (String c x :: y :: t'))
        with (String c (x ++ String sep "" ++ join (String sep "") (y :: t'))).
      change (join (String sep "") (x :: y :: t'))
        with (x ++ String sep "" ++ join (String sep "") (y :: t')) in IH.
      now rewrite IH.
Qed.

Lemma append_empty (s : string) : s ++ "" = s.
Proof. induction s as [|c s IH]; simpl; [reflexivity|now rewrite IH]. Qed.

Lemma append_assoc3 (a b c : string) : (a ++ b) ++ c = a ++ b ++ c.
Proof. induction a as [|x a IH]; simpl; [reflexivity|now rewrite IH]. Qed.

Lemma join_firstn_prefix (sep : string) (k : nat) (l : list string) :
  exists dropped, join sep l = join sep (firstn k l) ++ dropped.
Proof.
  revert k. induction l as [|x r IH]; intros k.
  - exists "". now destruct k.
  - destruct k as [|k]; [now exists (join sep (x :: r))|].
    destruct r as [|y r'].
    { exists "". destruct k; simpl; now rewrite append_empty. }
    destruct k as [|k].
    + exists (sep ++ join sep (y :: r')). reflexivity.
    + destruct (IH (S k)) as [dropped E]. cbn [firstn] in *.
      change (join sep (x :: y :: r')) with (x ++ sep ++ join sep (y :: r')).
      change (join sep (x :: y :: firstn k r'))
        with (x ++ sep ++ join sep (y :: firstn k r')).
      exists dropped. rewrite E. now rewrite !append_assoc3.
Qed.

(** X9.  Truncation keeps a prefix of the diff and never rewrites it: the
    text returned is a prefix of the output of [git diff], followed by two
    newlines and the notice. *)
Theorem truncation_keeps_a_prefix (h : Host) (base_branch : string)
    (n : Z) (log log' : list Invocation) (r : ChangeReport) :
  analyze_file_changes h base_branch true n log = (Report r, log') ->
  exists wd d,
    git h (diff_cmd base_branch) wd = inr d /\
    ((n < len (split LF (stdout d)))%Z ->
     exists kept dropped,
       stdout d = kept ++ dropped /\
       diff r = kept ++ String LF (String LF
                  (truncation_notice n (len (split LF (stdout d)))))).
Proof.
  intros H.
  destruct (analyze_report_fields _ _ _ _ _ _ _ H)
    as (wd & d & s & f & Hd & _ & _ & ->).
  exists wd, d. split; [assumption|]. intros Hlt. cbn [diff].
  unfold truncated_diff.
  destruct (Z.gtb_spec (len (split LF (stdout d))) n) as [_|]; [|lia].
  assert (Hk : exists k, slice_to (split LF (stdout d)) n
                         = firstn k (split LF (stdout d))).
  { unfold slice_to. destruct (n <? 0)%Z; eexists; reflexivity. }
  destruct Hk as [k ->].
  destruct (join_firstn_prefix (String LF "") k (split LF (stdout d)))
    as [dropped E].
  rewrite join_split in E.
  now exists (join (String LF "") (firstn k (split LF (stdout d)))), dropped.
Qed.

(** X10.  Without the diff the cap plays no part: with [include_diff]
    false the answer and the commands started are the same for every
    [max_diff_lines], whatever the host does. *)
Theorem cap_ignored_without_diff (h : Host) (base_branch : string)
    (n n' : Z) (log : list Invocation) :
  analyze_file_changes h base_branch false n log
    = analyze_file_changes h base_branch false n' log.
Proof.
  destruct (list_roots h) as [msg|[|wd others]] eqn:Hroots.
  - rewrite (analyze_no_root h base_branch false n),
      (analyze_no_root h base_branch false n'). now rewrite Hroots.
  - rewrite (analyze_no_root h base_branch false n),
      (analyze_no_root h base_branch false n'). now rewrite Hroots.
  - now rewrite !(analyze_unfold h base_branch false _ wd others log Hroots).
Qed.

(** ** Printing and parsing the list of changed files *)

(** X11.  When [git diff --name-status] prints nothing, or whitespace
    only, no file is listed. *)
Theorem blank_output_lists_nothing (files_stdout : string) :
  all_chars is_space files_stdout = true ->
  parse_changed_files files_stdout = [].
Proof.
  intros H. unfold parse_changed_files, strip.
  now rewrite (rstrip_all_space _ H).
Qed.

Lemma rstrip_join (lines : list string) :
  lines <> [] ->
  Forall (fun l => rstrip l = l /\ l <> "") lines ->
  rstrip (join (String LF "") lines) = join (String LF "") lines /\
  join (String LF "") lines <> "".
Proof.
  induction lines as [|x r IH]; intros Hne Hall; [contradiction|].
  inversion Hall as [|? ? [Hx Hx'] Hr]; subst.
  destruct r as [|y r']; [now split|].
  destruct IH as [IH1 IH2]; [discriminate|assumption|].
  change (join (String LF "") (x :: y :: r'))
    with (x ++ String LF (join (String LF "") (y :: r'))).
  split.
  - apply rstrip_keep; [|discriminate].
    cbn [rstrip]. rewrite IH1.
    destruct (join (String LF "") (y :: r')); [contradiction|reflexivity].
  - destruct x; discriminate.
Qed.

Lemma name_status_output_join (entries : list ChangedFile) :
  entries <> [] ->
  name_status_output entries
    = join (String LF "") (map name_status_line entries) ++ String LF "".
Proof.
  induction entries as [|e r IH]; intros Hne; [contradiction|].
  destruct r as [|e' r']; [reflexivity|].
  change (name_status_output (e :: e' :: r'))
    with (name_status_line e ++ String LF (name_status_output (e' :: r'))).
  rewrite IH by discriminate.
  change (join (String LF "") (map name_status_line (e :: e' :: r')))
    with (name_status_line e
            ++ String LF (join (String LF "") (map name_status_line (e' :: r')))).
  now rewrite append_assoc3.
Qed.

Lemma printable_fields (e : ChangedFile) :
  printable e = true ->
  has_char TAB (status e) = false /\ has_char LF (status e) = false /\
  has_char TAB (filename e) = false /\ has_char LF (filename e) = false /\
  starts_unspaced (status e) = true /\
  rstrip (filename e) = filename e /\ filename e <> "".
Proof.
  unfold printable, ends_unspaced. intros H.
  repeat (apply andb_true_iff in H; destruct H as [H ?]).
  match goal with
  | H' : _ && _ = true |- _ =>
      apply andb_true_iff in H'; destruct H' as [Hne Hr]
  end.
  repeat match goal with
         | H : negb _ = true |- _ => apply negb_true_iff in H
         end.
  repeat split; try assumption.
  - now apply String.eqb_eq.
  - intros E. rewrite E in Hne. discriminate.
Qed.

Lemma parse_printed_lines (entries : list ChangedFile) :
  forallb printable entries = true ->
  flat_map (parse_line []) (map name_status_line entries) = entries.
Proof.
  induction entries as [|e r IH]; [reflexivity|].
  cbn [forallb map flat_map]. intros H.
  apply andb_true_iff in H. destruct H as [He Hr].
  destruct (printable_fields e He) as (H1 & _ & H3 & _).
  rewrite (IH Hr). unfold name_status_line.
  rewrite (parse_line_fields [] _ (status e) (filename e) []
             (split_two_fields _ _ H1 H3)).
  now destruct e.
Qed.

(** X12.  Parsing undoes printing: for a list of entries whose fields
    hold no tab and no newline, whose statuses do not start with
    whitespace and whose filenames do not end with it, the name-status
    output that lists them, one per line, is parsed back into exactly
    these entries, in order. *)
Theorem parse_printed_output (entries : list ChangedFile) :
  forallb printable entries = true ->
  parse_changed_files (name_status_output entries) = entries.
Proof.
  intros H. destruct entries as [|e r] eqn:Eentries; [reflexivity|].
  rewrite <- Eentries in *.
  assert (Hne : entries <> []) by (rewrite Eentries; discriminate).
  unfold parse_changed_files. rewrite parse_fold. cbn [app].
  rewrite name_status_output_join by assumption.
  assert (Hall : Forall (fun e => printable e = true) entries)
    by (apply Forall_forall; now apply forallb_forall).
  assert (Hstrip : strip (join (String LF "") (map name_status_line entries)
                            ++ String LF "")
                   = join (String LF "") (map name_status_line entries)).
  { unfold strip. rewrite rstrip_app_space by reflexivity.
    destruct (rstrip_join (map name_status_line entries)) as [-> _].
    - rewrite Eentries. discriminate.
    - apply Forall_map. eapply Forall_impl; [|exact Hall].
      intros x Hx. destruct (printable_fields x Hx) as (_ & _ & _ & _ & _ & Hf & Hf').
      unfold name_status_line. split.
      + apply rstrip_keep; [|discriminate].
        cbn [rstrip]. rewrite Hf.
        destruct (filename x); [contradiction|reflexivity].
      + destruct (status x); discriminate.
    - rewrite Eentries. cbn [map].
      destruct (printable_fields e) as (_ & _ & _ & _ & Hs & _).
      { rewrite Eentries in H. cbn [forallb] in H.
        now apply andb_true_iff in H. }
      assert (Ehead : exists t,
                join (String LF "") (name_status_line e :: map name_status_line r)
                = status e ++ t).
      { unfold name_status_line at 1.
        destruct (map name_status_line r) as [|l ls].
        - now exists (String TAB (filename e)).
        - change (join (String LF "")
                    ((status e ++ String TAB (filename e)) :: l :: ls))
            with ((status e ++ String TAB (filename e))
                    ++ String LF "" ++ join (String LF "") (l :: ls)).
          rewrite append_assoc3. eexists. reflexivity. }
      destruct Ehead as [t ->]. now apply lstrip_keep. }
  rewrite Hstrip, split_join.
  - now apply parse_printed_lines.
  - rewrite Eentries. discriminate.
  - apply Forall_map. eapply Forall_impl; [|exact Hall].
    intros x Hx. destruct (printable_fields x Hx) as (_ & H2 & _ & H4 & _).
    unfold name_status_line. rewrite has_char_app, H2. simpl. exact H4.
Qed.

(** * Further properties of the template registry *)

Lemma dict_set_In {V} (d : dict V) (k k' : string) (v v' : V) :
  In (k', v') (dict_set d k v) -> (k', v') = (k, v) \/ In (k', v') d.
Proof.
  induction d as [|[k0 v0] d IH]; simpl.
  - intros [H|[]]. now left.
  - destruct (String.eqb_spec k0 k) as [->|_]; simpl.
    + intros [H|H]; [left; now symmetry|right; now right].
    + intros [H|H]; [right; now left|].
      destruct (IH H) as [E|E]; [now left|right; now right].
Qed.

Lemma dict_set_keys {V} (d : dict V) (k : string) (v : V) :
  dict_keys (dict_set d k v)
    = if dict_mem d k then dict_keys d else (dict_keys d ++ [k])%list.
Proof.
  unfold dict_mem. induction d as [|[k0 v0] d IH]; simpl; [reflexivity|].
  destruct (String.eqb_spec k0 k) as [->|_]; [reflexivity|].
  simpl. rewrite IH. now destruct (dict_get d k).
Qed.

Lemma dict_mem_In {V} (d : dict V) (k : string) :
  dict_mem d k = false -> ~ In k (dict_keys d).
Proof.
  unfold dict_mem. induction d as [|[k0 v0] d IH]; simpl; [tauto|].
  destruct (String.eqb_spec k0 k) as [->|Hne]; [discriminate|].
  intros H [E|E]; [contradiction|]. now apply IH.
Qed.

Lemma dict_set_nodup {V} (d : dict V) (k : string) (v : V) :
  NoDup (dict_keys d) -> NoDup (dict_keys (dict_set d k v)).
Proof.
  intros H. rewrite dict_set_keys.
  destruct (dict_mem d k) eqn:E; [assumption|].
  apply NoDup_app; [assumption|repeat constructor; now intros []|].
  intros x Hx [E'|[]]. subst x. now apply (dict_mem_In d k E).
Qed.

Lemma dict_set_length {V} (d : dict V) (k : string) (v : V) :
  (List.length d <= List.length (dict_set d k v) <= S (List.length d))%nat.
Proof.
  induction d as [|[k0 v0] d IH]; simpl; [lia|].
  destruct (String.eqb k0 k); simpl; lia.
Qed.

Lemma get_pr_templates_ok (fs : TemplatesDir) (templates : dict TemplateEntry)
    (count : Z) (dir : string) :
  get_pr_templates fs = Templates templates count dir ->
  templates = fold_left add_template (glob_md fs) [] /\
  count = len templates /\ dir = dir_str fs /\
  dir_exists fs = true /\ dir_is_dir fs = true.
Proof.
  unfold get_pr_templates.
  destruct (dir_exists fs), (dir_is_dir fs); try discriminate.
  intros [= <- <- <-]. now repeat split.
Qed.

Lemma registry_nodup (files : list TemplateFile) (templates : dict TemplateEntry) :
  NoDup (dict_keys templates) ->
  NoDup (dict_keys (fold_left add_template files templates)).
Proof.
  revert templates. induction files as [|f files IH]; intros templates H;
    [assumption|].
  simpl. apply IH. rewrite add_template_set. now apply dict_set_nodup.
Qed.

(** X13.  The keys of the mapping returned are pairwise distinct,
    whatever the files: two files with the same key give one entry. *)
Theorem registry_keys_unique (fs : TemplatesDir)
    (templates : dict TemplateEntry) (count : Z) (dir : string) :
  get_pr_templates fs = Templates templates count dir ->
  NoDup (dict_keys templates).
Proof.
  intros H. destruct (get_pr_templates_ok _ _ _ _ H) as (-> & _).
  apply registry_nodup. constructor.
Qed.

Lemma entry_name_key (f : TemplateFile) : entry_name (entry_of f) = key_of f.
Proof. unfold entry_of, key_of. now destruct (file_read f). Qed.

Lemma registry_entries (files : list TemplateFile)
    (templates : dict TemplateEntry) (k : string) (v : TemplateEntry) :
  In (k, v) (fold_left add_template files templates) ->
  In (k, v) templates \/
  exists f, In f files /\ key_of f = k /\ entry_of f = v.
Proof.
  revert templates. induction files as [|f files IH]; intros templates H;
    [now left|].
  simpl in H. destruct (IH _ H) as [Hin|(g & Hg & Hk & Hv)].
  - rewrite add_template_set in Hin.
    destruct (dict_set_In _ _ _ _ _ Hin) as [[= -> ->]|Hold];
      [right; exists f; repeat split; now left | now left].
  - right. exists g. repeat split; try assumption. now right.
Qed.

(** X14.  The mapping holds nothing but what the files give: every entry
    is the entry of a discovered file, stored under the key of that file,
    and its ["name"] field is the key it is stored under. *)
Theorem registry_entries_come_from_files (fs : TemplatesDir)
    (templates : dict TemplateEntry) (count : Z) (dir : string)
    (k : string) (v : TemplateEntry) :
  get_pr_templates fs = Templates templates count dir ->
  In (k, v) templates ->
  entry_name v = k /\
  exists f, In f (glob_md fs) /\ key_of f = k /\ entry_of f = v.
Proof.
  intros H Hin. destruct (get_pr_templates_ok _ _ _ _ H) as (-> & _).
  destruct (registry_entries _ _ _ _ Hin) as [[]|(f & Hf & Hk & Hv)].
  split; [now rewrite <- Hv, entry_name_key|now exists f].
Qed.

Lemma registry_length (files : list TemplateFile) (templates : dict TemplateEntry) :
  (List.length templates
   <= List.length (fold_left add_template files templates)
   <= List.length templates + List.length files)%nat.
Proof.
  revert templates. induction files as [|f files IH]; intros templates;
    simpl; [lia|].
  specialize (IH (add_template templates f)).
  rewrite add_template_set in *.
  pose proof (dict_set_length templates (key_of f) (entry_of f)). lia.
Qed.

(** X15.  The count returned is the number of entries of the mapping; it
    is at most the number of files discovered, and it is 0 exactly when
    no file was discovered. *)
Theorem registry_count (fs : TemplatesDir)
    (templates : dict TemplateEntry) (count : Z) (dir : string) :
  get_pr_templates fs = Templates templates count dir ->
  count = len templates /\
  (0 <= count <= len (glob_md fs))%Z /\
  (count = 0%Z <-> glob_md fs = []).
Proof.
  intros H. destruct (get_pr_templates_ok _ _ _ _ H) as (-> & -> & _).
  pose proof (registry_length (glob_md fs) []) as Hlen. cbn [List.length] in Hlen.
  unfold len. split; [reflexivity|]. split; [lia|]. split.
  - intros H0. destruct (glob_md fs) as [|f files] eqn:E; [reflexivity|].
    cbn [fold_left] in H0.
    pose proof (registry_length files (add_template [] f)) as Hl.
    rewrite add_template_set in *. cbn [dict_set List.length] in *. lia.
  - intros ->. reflexivity.
Qed.

Lemma length_append (a b : string) :
  String.length (a ++ b) = (String.length a + String.length b)%nat.
Proof. induction a as [|x a IH]; simpl; [reflexivity|now rewrite IH]. Qed.

Lemma substring_head (a b : string) :
  substring 0 (String.length a) (a ++ b) = a.
Proof.
  induction a as [|x a IH]; simpl; [now destruct b|now rewrite IH].
Qed.

Lemma rfind_app (c : ascii) (a s : string) :
  rfind c (a ++ s) =
    match rfind c s with
    | Some i => Some (String.length a + i)%nat
    | None => rfind c a
    end.
Proof.
  induction a as [|x a IH]; simpl.
  - now destruct (rfind c s).
  - rewrite IH. now destruct (rfind c s).
Qed.

(** The name of [X.md] is [X], for every non-empty [X], dots in [X]
    included. *)
Lemma stem_md (base : string) : base <> "" -> stem (base ++ ".md") = base.
Proof.
  intros Hne. unfold stem. rewrite rfind_app. cbn [rfind Ascii.eqb Bool.eqb].
  rewrite Nat.add_0_r, length_append, substring_head.
  destruct base as [|x base]; [contradiction|].
  cbn [String.length].
  replace (S (String.length base) + 3 - 1)%nat
    with (S (S (S (String.length base)))) by lia.
  destruct (Nat.ltb_spec 0 (S (String.length base))) as [_|]; [|lia].
  destruct (Nat.ltb_spec (S (String.length base))
              (S (S (S (String.length base))))) as [_|]; [reflexivity|lia].
Qed.

(** X16.  A file [X.md] that can be read is registered under the name
    [X], its extension removed, with its path and its content, and this
    is the entry found under [X] unless a file discovered later has the
    same key. *)
Theorem readable_file_registered (fs : TemplatesDir)
    (pre post : list TemplateFile) (f : TemplateFile) (base content : string) :
  dir_exists fs = true -> dir_is_dir fs = true ->
  glob_md fs = (pre ++ f :: post)%list ->
  file_name f = base ++ ".md" -> base <> "" ->
  file_read f = inr content ->
  (forall g, In g post -> key_of g <> base) ->
  exists templates,
    get_pr_templates fs = Templates templates (len templates) (dir_str fs) /\
    dict_get templates base = Some (Template base (file_path f) content).
Proof.
  intros Hex Hdir Hfiles Hname Hbase Hread Hpost.
  exists (fold_left add_template (glob_md fs) []). split.
  - unfold get_pr_templates. now rewrite Hex, Hdir.
  - rewrite Hfiles, fold_left_app. simpl.
    apply registry_last_wins; [|assumption].
    rewrite add_template_set. unfold key_of, entry_of.
    rewrite Hread, Hname, (stem_md base Hbase).
    apply dict_get_set_same.
Qed.

(** * Further properties of the recommender *)

(** X17.  When the templates directory is missing, or is not a directory,
    the recommender returns the error of the registry after
    ["Failed to get templates: "], with no suggestion, for every summary
    and change type. *)
Theorem missing_directory_reported (fs : TemplatesDir)
    (changes_summary change_type : string) :
  dir_exists fs = false \/ dir_is_dir fs = false ->
  get_pr_templates fs
    = TemplatesError ("Templates directory not found at " ++ dir_str fs) /\
  suggest_template fs changes_summary change_type
    = NoSuggestion ("Failed to get templates: "
                      ++ "Templates directory not found at " ++ dir_str fs).
Proof.
  intros H.
  assert (E : get_pr_templates fs
              = TemplatesError ("Templates directory not found at " ++ dir_str fs)).
  { unfold get_pr_templates.
    destruct H as [-> | ->]; [reflexivity|now rewrite orb_true_r]. }
  split; [assumption|]. unfold suggest_template. now rewrite E.
Qed.

Lemma dict_get_In {V} (d : dict V) (k : string) (v : V) :
  dict_get d k = Some v -> In (k, v) d.
Proof.
  induction d as [|[k0 v0] d IH]; simpl; [discriminate|].
  destruct (String.eqb_spec k0 k) as [->|_].
  - intros [= ->]. now left.
  - intros H. right. now apply IH.
Qed.

Lemma default_template_registered (templates : dict TemplateEntry) :
  templates <> [] ->
  exists name template reason,
    default_template templates = Suggestion name template low reason /\
    dict_get templates name = Some template.
Proof.
  intros Hne. unfold default_template.
  destruct (dict_get templates "feature") as [t|] eqn:E.
  - now exists "feature", t, "No strong match found, defaulting to feature template".
  - destruct templates as [|[k v] others]; [contradiction|].
    exists k, v, "No match found, using first available template".
    split; [reflexivity|]. simpl. now rewrite String.eqb_refl.
Qed.

(** The three ways a suggestion is made. *)
Lemma suggest_template_cases (fs : TemplatesDir)
    (templates : dict TemplateEntry) (count : Z)
    (dir changes_summary change_type : string) :
  get_pr_templates fs = Templates templates count dir ->
  templates <> [] ->
  (exists target template,
     dict_get common_types (strip (lower change_type)) = Some target /\
     dict_get templates target = Some template /\
     direct_match templates change_type <> None /\
     suggest_template fs changes_summary change_type
       = Suggestion target template high
           ("Direct match for change type '" ++ change_type ++ "'"))
  \/
  (direct_match templates change_type = None /\
   exists t score template,
     best_match changes_summary = Some (t, score) /\ (score > 0)%Z /\
     dict_get templates t = Some template /\
     suggest_template fs changes_summary change_type
       = Suggestion t template (if (score >? 2)%Z then medium else low)
           ("Based on " ++ str score
              ++ " keyword matches in the changes summary"))
  \/
  (direct_match templates change_type = None /\
   (exists t score,
      best_match changes_summary = Some (t, score) /\
      ((score <= 0)%Z \/ dict_get templates t = None)) /\
   suggest_template fs changes_summary change_type
     = default_template templates).
Proof.
  intros Hreg Hne.
  rewrite (suggest_template_stages fs templates count dir) by assumption.
  destruct (direct_match templates change_type) as [r|] eqn:Hdirect.
  - left. unfold direct_match in Hdirect.
    destruct (dict_get common_types (strip (lower change_type)))
      as [target|] eqn:Etarget; [|discriminate].
    destruct (negb (target =? "")); [|discriminate].
    destruct (dict_get templates target) as [template|] eqn:Etemplate;
      [|discriminate].
    injection Hdirect as <-. exists target, template.
    split; [reflexivity|]. split; [assumption|].
    split; [discriminate|reflexivity].
  - right.
    destruct (best_match_some changes_summary) as (t & score & Hbest).
    rewrite Hbest. unfold keyword_match.
    destruct (Z.gtb_spec score 0) as [Hpos|Hle].
    + destruct (dict_get templates t) as [template|] eqn:Ht.
      * left. split; [reflexivity|]. exists t, score, template.
        repeat split; try assumption. lia.
      * right. split; [reflexivity|]. split; [|reflexivity].
        exists t, score. split; [reflexivity|now right].
    + right. split; [reflexivity|]. split; [|reflexivity].
      exists t, score. split; [reflexivity|now left].
Qed.

Lemma registry_not_empty (fs : TemplatesDir) (templates : dict TemplateEntry)
    (count : Z) (dir : string) :
  get_pr_templates fs = Templates templates count dir ->
  glob_md fs <> [] -> templates <> [].
Proof.
  intros H Hfiles. destruct (get_pr_templates_ok _ _ _ _ H) as (-> & _).
  destruct (glob_md fs) as [|f files]; [contradiction|].
  pose proof (registry_has_every_key (f :: files) [] f (or_introl eq_refl)) as Hk.
  intros E. rewrite E in Hk. discriminate.
Qed.

(** X18.  With at least one template file in an existing directory the
    recommender always suggests a template: for every summary and change
    type it returns a suggestion, never an error. *)
Theorem always_suggests (fs : TemplatesDir)
    (changes_summary change_type : string) :
  dir_exists fs = true -> dir_is_dir fs = true -> glob_md fs <> [] ->
  exists name template confidence reason,
    suggest_template fs changes_summary change_type
      = Suggestion name template confidence reason.
Proof.
  intros Hex Hdir Hfiles.
  assert (Hreg : get_pr_templates fs
                 = Templates (fold_left add_template (glob_md fs) [])
                     (len (fold_left add_template (glob_md fs) []))
                     (dir_str fs))
    by (unfold get_pr_templates; now rewrite Hex, Hdir).
  pose proof (registry_not_empty _ _ _ _ Hreg Hfiles) as Hne.
  destruct (suggest_template_cases fs _ _ _ changes_summary change_type
              Hreg Hne)
    as [(t & tpl & _ & _ & _ & ->)
       |[(_ & t & sc & tpl & _ & _ & _ & ->)|(_ & _ & ->)]].
  - now repeat eexists.
  - now repeat eexists.
  - destruct (default_template_registered _ Hne) as (n & tpl & rs & -> & _).
    now repeat eexists.
Qed.

(** X19.  What is suggested is in the registry: the template returned is
    the entry found under the suggested name, and the ["name"] field of
    that entry is the suggested name. *)
Theorem suggestion_is_registered (fs : TemplatesDir)
    (templates : dict TemplateEntry) (count : Z)
    (dir changes_summary change_type name reason : string)
    (template : TemplateEntry) (confidence : Confidence) :
  get_pr_templates fs = Templates templates count dir ->
  suggest_template fs changes_summary change_type
    = Suggestion name template confidence reason ->
  dict_get templates name = Some template /\ entry_name template = name.
Proof.
  intros Hreg Hrun.
  assert (Hget : dict_get templates name = Some template).
  { destruct templates as [|kv others] eqn:E.
    { unfold suggest_template in Hrun. rewrite Hreg in Hrun.
      rewrite (get_pr_templates_count _ _ _ _ Hreg) in Hrun. discriminate. }
    rewrite <- E in *.
    assert (Hne : templates <> []) by (rewrite E; discriminate).
    destruct (suggest_template_cases fs _ _ _ changes_summary change_type
                Hreg Hne)
      as [(t & tpl & _ & Ht & _ & Hs)
         |[(_ & t & sc & tpl & _ & _ & Ht & Hs)|(_ & _ & Hs)]];
      rewrite Hs in Hrun.
    - now injection Hrun as <- <- _ _.
    - now injection Hrun as <- <- _ _.
    - destruct (default_template_registered _ Hne) as (n & tpl & rs & Hd & Hn).
      rewrite Hd in Hrun. now injection Hrun as <- <- _ _. }
  split; [assumption|].
  destruct (get_pr_templates_ok _ _ _ _ Hreg) as (Ht & _).
  apply dict_get_In in Hget. rewrite Ht in Hget.
  destruct (registry_entries _ _ _ _ Hget) as [[]|(f & _ & Hk & Hv)].
  now rewrite <- Hv, entry_name_key.
Qed.

Lemma suggestion_needs_templates (fs : TemplatesDir)
    (templates : dict TemplateEntry) (count : Z)
    (dir changes_summary change_type name reason : string)
    (template : TemplateEntry) (confidence : Confidence) :
  get_pr_templates fs = Templates templates count dir ->
  suggest_template fs changes_summary change_type
    = Suggestion name template confidence reason ->
  templates <> [].
Proof.
  intros Hreg Hrun ->. unfold suggest_template in Hrun.
  rewrite Hreg, (get_pr_templates_count _ _ _ _ Hreg) in Hrun. discriminate.
Qed.

(** Every change type of the table maps to one of the seven categories. *)
Lemma common_types_targets (change_type target : string) :
  dict_get common_types change_type = Some target -> In target categories.
Proof.
  unfold common_types. cbn [dict_get].
  repeat (destruct (_ =? change_type)%string;
          [intros [= <-]; vm_compute; tauto|]).
  discriminate.
Qed.

(** X20.  What the confidence says.  It is high exactly when stage 1
    decided, and then the normalised change type is an entry of the
    table whose target is the suggested name; it is medium only when the
    keyword stage selected the suggested name with more than two keyword
    matches; and a suggestion that is not one of the seven categories
    always has confidence low. *)
Theorem confidence_levels (fs : TemplatesDir)
    (templates : dict TemplateEntry) (count : Z)
    (dir changes_summary change_type name reason : string)
    (template : TemplateEntry) (confidence : Confidence) :
  get_pr_templates fs = Templates templates count dir ->
  suggest_template fs changes_summary change_type
    = Suggestion name template confidence reason ->
  (confidence = high <-> direct_match templates change_type <> None) /\
  (confidence = high ->
   dict_get common_types (strip (lower change_type)) = Some name) /\
  (confidence = medium ->
   exists score,
     best_match changes_summary = Some (name, score) /\ (score > 2)%Z) /\
  (~ In name categories -> confidence = low).
Proof.
  intros Hreg Hrun.
  pose proof (suggestion_needs_templates _ _ _ _ _ _ _ _ _ _ Hreg Hrun) as Hne.
  destruct (suggest_template_cases fs _ _ _ changes_summary change_type
              Hreg Hne)
    as [(t & tpl & Hmap & _ & Hdirect & Hs)
       |[(Hdirect & t & sc & tpl & Hbest & Hpos & _ & Hs)
        |(Hdirect & _ & Hs)]];
    rewrite Hs in Hrun.
  - injection Hrun as <- <- <- _.
    split; [split; [intros _; assumption|reflexivity]|].
    split; [intros _; assumption|]. split; [discriminate|].
    intros Hout. exfalso. apply Hout. exact (common_types_targets _ _ Hmap).
  - injection Hrun as <- <- <- _.
    split; [split; [destruct (sc >? 2)%Z; discriminate|now rewrite Hdirect]|].
    split; [destruct (sc >? 2)%Z; discriminate|]. split.
    + intros Hmed. exists sc. split; [assumption|].
      destruct (Z.gtb_spec sc 2); [lia|discriminate].
    + intros Hout. exfalso. apply Hout.
      now destruct (best_match_first _ _ _ Hbest) as (_ & Hin & _).
  - destruct (default_template_registered _ Hne) as (n & tpl & rs & Hd & _).
    rewrite Hd in Hrun. injection Hrun as <- <- <- _.
    split; [split; [discriminate|now rewrite Hdirect]|].
    split; [discriminate|]. split; [discriminate|reflexivity].
Qed.

(** X21.  The change type is read up to letter case and surrounding
    whitespace: two change types with the same normal form give the same
    suggestion, template and confidence (or the same error); only the
    reason, which quotes the change type as given, can differ. *)
Theorem change_type_normalised (fs : TemplatesDir)
    (changes_summary change_type change_type' : string) :
  strip (lower change_type) = strip (lower change_type') ->
  without_reason (suggest_template fs changes_summary change_type)
    = without_reason (suggest_template fs changes_summary change_type').
Proof.
  intros H. unfold suggest_template.
  destruct (get_pr_templates fs) as [e|templates count dir]; [reflexivity|].
  destruct (count =? 0)%Z; [reflexivity|].
  unfold direct_match. rewrite H.
  destruct (dict_get common_types (strip (lower change_type')))
    as [target|]; [|reflexivity].
  destruct (negb (target =? "")); [|reflexivity].
  now destruct (dict_get templates target).
Qed.

(** X22.  A summary in which no keyword occurs, the empty summary for
    one, gets the default: when stage 1 finds nothing and every category
    scores 0, the tool returns the template named feature, with
    confidence low, if there is one, and otherwise the first entry of the
    registry, with confidence low. *)
Theorem no_keyword_gets_default (fs : TemplatesDir)
    (templates : dict TemplateEntry) (count : Z)
    (dir changes_summary change_type : string) :
  get_pr_templates fs = Templates templates count dir ->
  templates <> [] ->
  direct_match templates change_type = None ->
  (forall c, In c categories -> score_of changes_summary c = 0%Z) ->
  (forall template,
     dict_get templates "feature" = Some template ->
     suggest_template fs changes_summary change_type
       = Suggestion "feature" template low
           "No strong match found, defaulting to feature template") /\
  (dict_mem templates "feature" = false ->
   exists first_template_name template others,
     templates = (first_template_name, template) :: others /\
     suggest_template fs changes_summary change_type
       = Suggestion first_template_name template low
           "No match found, using first available template").
Proof.
  intros Hreg Hne Hdirect Hzero.
  assert (Hrun : suggest_template fs changes_summary change_type
                 = default_template templates).
  { rewrite (suggest_template_stages fs templates count dir) by assumption.
    rewrite Hdirect.
    destruct (best_match_some changes_summary) as (t & v & Hbest).
    destruct (best_match_first _ _ _ Hbest) as (Hv & Ht & _).
    rewrite Hbest. rewrite (Hzero t Ht) in Hv. now subst v. }
  rewrite Hrun. unfold default_template, dict_mem. split.
  - intros template Hfeature. now rewrite Hfeature.
  - destruct (dict_get templates "feature"); [discriminate|]. intros _.
    destruct templates as [|[k v] others]; [contradiction|].
    now exists k, v, others.
Qed.

Lemma lower_char_idempotent (c : ascii) :
  lower_char (lower_char c) = lower_char c.
Proof.
  destruct c as [[] [] [] [] [] [] [] []]; reflexivity.
Qed.

Lemma lower_idempotent (s : string) : lower (lower s) = lower s.
Proof.
  induction s as [|c s IH]; simpl; [reflexivity|].
  now rewrite lower_char_idempotent, IH.
Qed.

(** X23.  The letter case of the summary plays no part: two summaries
    with the same lower-case form get the same answer, and so do a
    summary and its lower-case form. *)
Theorem summary_case_ignored (fs : TemplatesDir)
    (changes_summary changes_summary' change_type : string) :
  (lower changes_summary = lower changes_summary' ->
   suggest_template fs changes_summary change_type
     = suggest_template fs changes_summary' change_type) /\
  suggest_template fs (lower changes_summary) change_type
    = suggest_template fs changes_summary change_type.
Proof.
  assert (Hsame : forall s s', lower s = lower s' ->
            suggest_template fs s change_type
            = suggest_template fs s' change_type).
  { intros s s' H. unfold suggest_template, best_match, keyword_scores.
    now rewrite H. }
  split; [apply Hsame|]. apply Hsame, lower_idempotent.
Qed.

(** ** Keyword counts *)

Lemma prefix_app (w s b : string) :
  String.prefix w s = true -> String.prefix w (s ++ b) = true.
Proof.
  revert s. induction w as [|x w IH]; intros s;
    [intros _; now destruct (s ++ b)|].
  destruct s as [|c s]; simpl; [discriminate|].
  destruct (ascii_dec x c); [apply IH|discriminate].
Qed.

Lemma contains_app_r (w s b : string) :
  contains w s = true -> contains w (s ++ b) = true.
Proof.
  induction s as [|c s IH]; intros H.
  - simpl in H. rewrite orb_false_r in H.
    destruct w; [|discriminate]. now destruct b.
  - cbn [contains] in H. apply orb_true_iff in H.
    change ((String c s) ++ b) with (String c (s ++ b)). cbn [contains].
    apply orb_true_iff. destruct H as [H|H].
    + left. exact (prefix_app w (String c s) b H).
    + right. now apply IH.
Qed.

Lemma contains_app_l (w a s : string) :
  contains w s = true -> contains w (a ++ s) = true.
Proof.
  intros H. induction a as [|x a IH]; [assumption|].
  change ((String x a) ++ s) with (String x (a ++ s)). cbn [contains].
  rewrite IH. apply orb_true_r.
Qed.

Lemma lower_app (a b : string) : lower (a ++ b) = lower a ++ lower b.
Proof. induction a as [|x a IH]; simpl; [reflexivity|now rewrite IH]. Qed.

Lemma filter_length_mono {A} (p q : A -> bool) (l : list A) :
  (forall x, p x = true -> q x = true) ->
  (List.length (filter p l) <= List.length (filter q l))%nat.
Proof.
  intros H. induction l as [|x l IH]; simpl; [lia|].
  destruct (p x) eqn:Hp.
  - rewrite (H x Hp). simpl. lia.
  - destruct (q x); simpl; lia.
Qed.

Lemma filter_length_le {A} (p : A -> bool) (l : list A) :
  (List.length (filter p l) <= List.length l)%nat.
Proof. induction l as [|x l IH]; simpl; [lia|]. destruct (p x); simpl; lia. Qed.

Lemma keywords_at_most_seven (c : string) (words : list string) :
  dict_get keywords c = Some words -> (List.length words <= 7)%nat.
Proof.
  unfold keywords. cbn [dict_get].
  repeat (destruct (_ =? c)%string; [intros [= <-]; simpl; lia|]).
  discriminate.
Qed.

(** X24.  The score of a category is between 0 and 7, and text added
    before or after a summary never lowers it: keywords are looked for as
    substrings of the lower-cased summary, wherever they are. *)
Theorem score_bounds_and_growth (changes_summary before after c : string) :
  (0 <= score_of changes_summary c <= 7)%Z /\
  (score_of changes_summary c
   <= score_of (before ++ changes_summary ++ after) c)%Z.
Proof.
  unfold score_of.
  destruct (dict_get keywords c) as [words|] eqn:E; [|lia].
  unfold matches, hits, len. split.
  - pose proof (filter_length_le
                  (fun word => contains word (lower changes_summary)) words).
    pose proof (keywords_at_most_seven c words E). lia.
  - apply inj_le, filter_length_mono. intros w Hw.
    rewrite !lower_app. now apply contains_app_l, contains_app_r.
Qed.

(** X25.  A change type that stage 1 cannot use is ignored: when it is
    not in the table, or when the category it maps to has no template,
    the answer is the one given for the empty change type. *)
Theorem unusable_change_type_ignored (fs : TemplatesDir)
    (templates : dict TemplateEntry) (count : Z)
    (dir changes_summary change_type : string) :
  get_pr_templates fs = Templates templates count dir ->
  (dict_get common_types (strip (lower change_type)) = None \/
   exists target,
     dict_get common_types (strip (lower change_type)) = Some target /\
     dict_mem templates target = false) ->
  suggest_template fs changes_summary change_type
    = suggest_template fs changes_summary "".
Proof.
  intros Hreg H. unfold suggest_template. rewrite Hreg.
  destruct (count =? 0)%Z; [reflexivity|].
  assert (Hdirect : direct_match templates change_type = None).
  { unfold direct_match. destruct H as [-> | (target & -> & Hmem)];
      [reflexivity|].
    unfold dict_mem in Hmem.
    destruct (negb (target =? "")); [|reflexivity].
    now destruct (dict_get templates target). }
  now rewrite Hdirect.
Qed.

(** * More on the change inspector and the registry *)

(** X26.  [include_diff] and [max_diff_lines] touch nothing but the
    [diff] field: for the same host and base branch, two calls start the
    same commands and either return the same error, or return reports
    with the same [stats], [total_diff_lines] and [files_changed]. *)
Theorem options_touch_only_diff (h : Host) (base_branch : string)
    (include_diff include_diff' : bool) (n n' : Z) (log : list Invocation) :
  snd (analyze_file_changes h base_branch include_diff n log)
    = snd (analyze_file_changes h base_branch include_diff' n' log) /\
  match fst (analyze_file_changes h base_branch include_diff n log),
        fst (analyze_file_changes h base_branch include_diff' n' log) with
  | Report r, Report r' =>
      stats r = stats r' /\
      total_diff_lines r = total_diff_lines r' /\
      files_changed r = files_changed r'
  | answer, answer' => answer = answer'
  end.
Proof.
  destruct (list_roots h) as [msg|[|wd others]] eqn:Hroots.
  - rewrite (analyze_no_root h base_branch include_diff n),
      (analyze_no_root h base_branch include_diff' n'), Hroots. now split.
  - rewrite (analyze_no_root h base_branch include_diff n),
      (analyze_no_root h base_branch include_diff' n'), Hroots. now split.
  - rewrite (analyze_unfold h base_branch include_diff n wd others log Hroots),
      (analyze_unfold h base_branch include_diff' n' wd others log Hroots).
    cbv zeta.
    destruct (git h (diff_cmd base_branch) wd) as [m|d]; [now split|].
    destruct (negb (returncode d =? 0)%Z); [now split|].
    destruct (git h (stats_cmd base_branch) wd) as [m|s]; [now split|].
    destruct (negb (returncode s =? 0)%Z); [now split|].
    destruct (git h (files_cmd base_branch) wd) as [m|f]; [now split|].
    destruct (negb (returncode f =? 0)%Z); now repeat split.
Qed.

Lemma dict_set_head {V} (d : dict V) (k0 k : string) (v0 v : V) :
  exists w others,
    dict_set ((k0, v0) :: d) k v = (k0, w) :: others.
Proof.
  simpl. destruct (String.eqb k0 k); eexists; eexists; reflexivity.
Qed.

Lemma registry_head (files : list TemplateFile) (k0 : string)
    (v0 : TemplateEntry) (d : dict TemplateEntry) :
  exists w others,
    fold_left add_template files ((k0, v0) :: d) = (k0, w) :: others.
Proof.
  revert v0 d. induction files as [|f files IH]; intros v0 d.
  - now exists v0, d.
  - simpl. rewrite add_template_set.
    destruct (dict_set_head d k0 (key_of f) v0 (entry_of f)) as (w & o & ->).
    apply IH.
Qed.

(** X27.  The mapping is in discovery order: its first entry is stored
    under the key of the first file discovered, so this is the name the
    recommender falls back on when there is no feature template. *)
Theorem first_entry_is_first_file (fs : TemplatesDir)
    (f : TemplateFile) (files : list TemplateFile) :
  dir_exists fs = true -> dir_is_dir fs = true ->
  glob_md fs = f :: files ->
  exists template others,
    get_pr_templates fs
      = Templates ((key_of f, template) :: others)
          (len ((key_of f, template) :: others)) (dir_str fs) /\
    (dict_mem ((key_of f, template) :: others) "feature" = false ->
     default_template ((key_of f, template) :: others)
       = Suggestion (key_of f) template low
           "No match found, using first available template").
Proof.
  intros Hex Hdir Hfiles.
  destruct (registry_head files (key_of f) (entry_of f) []) as (w & o & E).
  exists w, o. split.
  - unfold get_pr_templates. rewrite Hex, Hdir, Hfiles. cbn [negb orb fold_left].
    rewrite add_template_set. cbn [dict_set]. now rewrite E.
  - unfold default_template, dict_mem.
    now destruct (dict_get ((key_of f, w) :: o) "feature").
Qed.

(** * The further properties at concrete inputs *)

Lemma diff_failure_aborts_witness :
  analyze_file_changes
    (scripted_host (inr ["/repo"]) (exited 128 "" "fatal: bad revision")
       (exited 0 "" "") (exited 0 "" ""))
    "main" true 500 []
  = (CommandFailed "Git diff command failed: fatal: bad revision"
       "git diff main...HEAD",
     [{| argv := ["git"; "diff"; "main...HEAD"]; cwd := "/repo" |}]).
Proof.
  exact (diff_failure_aborts
           (scripted_host (inr ["/repo"]) (exited 128 "" "fatal: bad revision")
              (exited 0 "" "") (exited 0 "" ""))
           "main" true 500 "/repo" []
           {| returncode := 128; stdout := ""; stderr := "fatal: bad revision" |}
           [] eq_refl eq_refl ltac:(discriminate)).
Defined.

Lemma stats_failure_aborts_witness :
  analyze_file_changes
    (scripted_host (inr ["/repo"]) (exited 0 "d" "")
       (exited 1 "" "stat failed") (exited 0 "" ""))
    "main" true 500 []
  = (CommandFailed "Git diff --stat command failed: stat failed"
       "git diff --stat main...HEAD",
     [{| argv := ["git"; "diff"; "main...HEAD"]; cwd := "/repo" |};
      {| argv := ["git"; "diff"; "--stat"; "main...HEAD"]; cwd := "/repo" |}]).
Proof.
  exact (stats_failure_aborts
           (scripted_host (inr ["/repo"]) (exited 0 "d" "")
              (exited 1 "" "stat failed") (exited 0 "" ""))
           "main" true 500 "/repo" []
           {| returncode := 0; stdout := "d"; stderr := "" |}
           {| returncode := 1; stdout := ""; stderr := "stat failed" |}
           [] eq_refl eq_refl eq_refl eq_refl ltac:(discriminate)).
Defined.

Lemma files_failure_aborts_witness :
  analyze_file_changes
    (scripted_host (inr ["/repo"]) (exited 0 "d" "") (exited 0 "s" "")
       (exited 2 "" "list failed"))
    "main" false 500 []
  = (CommandFailed "Git diff --name-status command failed: list failed"
       "git diff --name-status main...HEAD",
     commands "main" "/repo").
Proof.
  exact (files_failure_aborts
           (scripted_host (inr ["/repo"]) (exited 0 "d" "") (exited 0 "s" "")
              (exited 2 "" "list failed"))
           "main" false 500 "/repo" []
           {| returncode := 0; stdout := "d"; stderr := "" |}
           {| returncode := 0; stdout := "s"; stderr := "" |}
           {| returncode := 2; stdout := ""; stderr := "list failed" |}
           [] eq_refl eq_refl eq_refl eq_refl eq_refl eq_refl
           ltac:(discriminate)).
Defined.

Lemma no_root_no_command_witness :
  analyze_file_changes
    (scripted_host (inr []) (exited 0 "" "") (exited 0 "" "") (exited 0 "" ""))
    "main" true 500 []
  = (Failed "list index out of range", []).
Proof.
  exact (proj2 (no_root_no_command
                  (scripted_host (inr []) (exited 0 "" "") (exited 0 "" "")
                     (exited 0 "" ""))
                  "main" true 500 []) eq_refl).
Defined.

Lemma run_exception_reported_witness :
  analyze_file_changes
    (scripted_host (inr ["/repo"]) (inl "[Errno 2] No such file or directory")
       (exited 0 "" "") (exited 0 "" ""))
    "main" true 500 []
  = (Failed "[Errno 2] No such file or directory",
     [{| argv := ["git"; "diff"; "main...HEAD"]; cwd := "/repo" |}]).
Proof.
  exact (proj1 (run_exception_reported
                  (scripted_host (inr ["/repo"])
                     (inl "[Errno 2] No such file or directory")
                     (exited 0 "" "") (exited 0 "" ""))
                  "main" true 500 "/repo" []
                  "[Errno 2] No such file or directory" [] eq_refl) eq_refl).
Defined.

Lemma only_the_three_commands_witness :
  exists wd k,
    snd (analyze_file_changes demo_host "main" true 500 [])
      = ([] ++ firstn k (commands "main" wd))%list /\
    ((0 < k)%nat -> exists others, list_roots demo_host = inr (wd :: others)) /\
    (forall r,
       fst (analyze_file_changes demo_host "main" true 500 []) = Report r ->
       k = 3%nat).
Proof. exact (only_the_three_commands demo_host "main" true 500 []). Defined.

Lemma total_lines_counts_newlines_witness :
  exists wd d,
    git demo_host (diff_cmd "main") wd = inr d /\
    3%Z = (Z.of_nat (count_char LF (stdout d)) + 1)%Z /\
    (1 <= 3)%Z /\
    (stdout d = "" -> 3%Z = 1%Z).
Proof.
  exact (total_lines_counts_newlines demo_host "main" true 500 [] _ _ eq_refl).
Defined.

Lemma negative_cap_drops_last_lines_witness :
  exists r log',
    analyze_file_changes demo_host "main" true (-1) [] = (Report r, log') /\
    split LF (diff r)
      = ["a"; "b"; ""; "... Output truncated. Showing -1 of 3 lines ..."].
Proof.
  eexists; eexists. split; [reflexivity|].
  destruct (negative_cap_drops_last_lines demo_host "main" (-1) [] _ _
              eq_refl ltac:(lia)) as (wd & d & Hd & H).
  injection Hd as <-. exact H.
Defined.

Lemma truncation_keeps_a_prefix_witness :
  exists kept dropped,
    String "a" (String LF (String "b" (String LF "c"))) = kept ++ dropped /\
    truncated_diff (String "a" (String LF (String "b" (String LF "c")))) 2
      = kept ++ String LF (String LF (truncation_notice 2 3)).
Proof.
  destruct (truncation_keeps_a_prefix demo_host "main" 2 [] _ _ eq_refl)
    as (wd & d & Hd & H).
  injection Hd as <-. apply H. reflexivity.
Defined.

Lemma blank_output_lists_nothing_witness :
  parse_changed_files (String LF (String " " (String LF ""))) = [].
Proof.
  exact (blank_output_lists_nothing
           (String LF (String " " (String LF ""))) eq_refl).
Defined.

Lemma parse_printed_output_witness :
  parse_changed_files
    (name_status_output
       [{| status := "M"; filename := "server.py" |};
        {| status := "R100"; filename := "old name.py" |}])
  = [{| status := "M"; filename := "server.py" |};
     {| status := "R100"; filename := "old name.py" |}].
Proof.
  exact (parse_printed_output
           [{| status := "M"; filename := "server.py" |};
            {| status := "R100"; filename := "old name.py" |}] eq_refl).
Defined.

Lemma registry_keys_unique_witness :
  NoDup ["bug.md"; "docs"].
Proof.
  exact (registry_keys_unique
           (a_dir [unreadable "bug.md"; readable "bug.md.md" "text";
                   readable "docs.md" "D"]) _ _ _ eq_refl).
Defined.

Lemma registry_entries_come_from_files_witness :
  entry_name (Template "bug" "/srv/templates/bug.md" "B") = "bug" /\
  exists f,
    In f [readable "bug.md" "B"] /\ key_of f = "bug" /\
    entry_of f = Template "bug" "/srv/templates/bug.md" "B".
Proof.
  exact (registry_entries_come_from_files (a_dir [readable "bug.md" "B"])
           _ _ _ "bug" (Template "bug" "/srv/templates/bug.md" "B")
           eq_refl (or_introl eq_refl)).
Defined.

Lemma registry_count_witness :
  1%Z = len [("bug.md", Template "bug.md" "/srv/templates/bug.md.md" "text")] /\
  (0 <= 1 <= len [unreadable "bug.md"; readable "bug.md.md" "text"])%Z /\
  (1%Z = 0%Z <-> [unreadable "bug.md"; readable "bug.md.md" "text"] = []).
Proof.
  exact (registry_count
           (a_dir [unreadable "bug.md"; readable "bug.md.md" "text"])
           _ _ _ eq_refl).
Defined.

Lemma readable_file_registered_witness :
  exists templates,
    get_pr_templates (a_dir [readable "bug.md" "B"; readable "docs.md" "D"])
      = Templates templates (len templates) "/srv/templates" /\
    dict_get templates "bug"
      = Some (Template "bug" "/srv/templates/bug.md" "B").
Proof.
  apply (readable_file_registered
           (a_dir [readable "bug.md" "B"; readable "docs.md" "D"])
           [] [readable "docs.md" "D"] (readable "bug.md" "B") "bug" "B");
    try reflexivity.
  - discriminate.
  - intros g [<-|[]]. vm_compute. discriminate.
Defined.

Lemma missing_directory_reported_witness :
  suggest_template
    {| dir_str := "/srv/templates"; dir_exists := false; dir_is_dir := false;
       glob_md := [] |}
    "fixed a crash" "fix"
  = NoSuggestion
      "Failed to get templates: Templates directory not found at /srv/templates".
Proof.
  exact (proj2 (missing_directory_reported
                  {| dir_str := "/srv/templates"; dir_exists := false;
                     dir_is_dir := false; glob_md := [] |}
                  "fixed a crash" "fix" (or_introl eq_refl))).
Defined.

Lemma always_suggests_witness :
  exists name template confidence reason,
    suggest_template (a_dir [readable "notes.md" "N"]) "" ""
      = Suggestion name template confidence reason.
Proof.
  exact (always_suggests (a_dir [readable "notes.md" "N"]) "" ""
           eq_refl eq_refl ltac:(discriminate)).
Defined.

Lemma suggestion_is_registered_witness :
  dict_get [("notes", Template "notes" "/srv/templates/notes.md" "N")] "notes"
    = Some (Template "notes" "/srv/templates/notes.md" "N") /\
  entry_name (Template "notes" "/srv/templates/notes.md" "N") = "notes".
Proof.
  exact (suggestion_is_registered (a_dir [readable "notes.md" "N"])
           _ _ _ "" "" _ _ _ _ eq_refl eq_refl).
Defined.

Lemma confidence_levels_witness :
  (medium = high <->
   direct_match [("bug", Template "bug" "/srv/templates/bug.md" "B")] "unknown"
     <> None) /\
  (medium = high ->
   dict_get common_types (strip (lower "unknown")) = Some "bug") /\
  (medium = medium ->
   exists score,
     best_match "fix the crash and the error" = Some ("bug", score) /\
     (score > 2)%Z) /\
  (~ In "bug" categories -> medium = low).
Proof.
  exact (confidence_levels (a_dir [readable "bug.md" "B"])
           _ _ _ "fix the crash and the error" "unknown" _ _ _ _
           eq_refl eq_refl).
Defined.

Lemma change_type_normalised_witness :
  without_reason
    (suggest_template (a_dir [readable "bug.md" "B"]) "" "  FIX ")
  = without_reason
      (suggest_template (a_dir [readable "bug.md" "B"]) "" "fix").
Proof.
  exact (change_type_normalised (a_dir [readable "bug.md" "B"])
           "" "  FIX " "fix" eq_refl).
Defined.

Lemma no_keyword_gets_default_witness :
  suggest_template (a_dir [readable "docs.md" "D"; readable "bug.md" "B"]) "" ""
    = Suggestion "docs" (Template "docs" "/srv/templates/docs.md" "D") low
        "No match found, using first available template".
Proof.
  destruct (no_keyword_gets_default
              (a_dir [readable "docs.md" "D"; readable "bug.md" "B"])
              _ _ _ "" "" eq_refl) as (_ & Hfirst).
  - discriminate.
  - reflexivity.
  - intros c Hc. each_category Hc.
  - destruct (Hfirst eq_refl) as (k & v & others & E & Hrun).
    injection E as <- <- _. exact Hrun.
Defined.

Lemma summary_case_ignored_witness :
  suggest_template (a_dir [readable "bug.md" "B"]) "FIX the Crash" "unknown"
    = suggest_template (a_dir [readable "bug.md" "B"]) "fix THE crash" "unknown".
Proof.
  exact (proj1 (summary_case_ignored (a_dir [readable "bug.md" "B"])
                  "FIX the Crash" "fix THE crash" "unknown") eq_refl).
Defined.

Lemma unusable_change_type_ignored_witness :
  suggest_template (a_dir [readable "docs.md" "D"]) "fix a crash" "fix"
    = suggest_template (a_dir [readable "docs.md" "D"]) "fix a crash" "".
Proof.
  exact (unusable_change_type_ignored (a_dir [readable "docs.md" "D"])
           _ _ _ "fix a crash" "fix" eq_refl
           (or_intror (ex_intro _ "bug" (conj eq_refl eq_refl)))).
Defined.

Lemma first_entry_is_first_file_witness :
  exists template others,
    get_pr_templates (a_dir [readable "docs.md" "D"; readable "bug.md" "B"])
      = Templates (("docs", template) :: others)
          (len (("docs", template) :: others)) "/srv/templates" /\
    (dict_mem (("docs", template) :: others) "feature" = false ->
     default_template (("docs", template) :: others)
       = Suggestion "docs" template low
           "No match found, using first available template").
Proof.
  exact (first_entry_is_first_file
           (a_dir [readable "docs.md" "D"; readable "bug.md" "B"])
           (readable "docs.md" "D") [readable "bug.md" "B"]
           eq_refl eq_refl eq_refl).
Defined.
